(** * Sui price-prediction bot: signal fusion and trade targets

    A shallow embedding of the decision logic of the repository:

    - [src/analysis/technical_indicators.py]: [calculate_trade_targets]
      and [generate_signals];
    - [src/signals/trading_signals.py]: [generate_trading_signal],
      [_generate_final_signal] and [_get_entry_timing];
    - [src/ai/deepseek_client.py]: the parsing of a response;
    - [main.py]: the configuration, the printing and the loop.

    Numbers.  Python floats and numpy [float64] scalars are modelled twice.

    - By [num]: an exact rational, or one of the three IEEE special values
      (plus infinity, minus infinity, not-a-number).  Arithmetic on finite
      values is exact (no rounding, no overflow, one zero only); the
      special values follow the IEEE rules numpy applies, so that a
      division by zero or an incomplete rolling window shows up in the
      model as it does in the program.  Results are kept in lowest terms,
      which makes equal results syntactically equal.  This model carries
      what is decided by the structure of the code and by comparisons of
      its inputs: which branch is taken, which fields a record has, which
      call raises.
    - By the binary64 floats of the machine, in [Binary64]: the scoring
      and the target calculator once more, with every operation rounded
      as the program rounds it.  This model carries the values: a sum of
      decimal weights, the effect of a rounding on an ordering or on an
      identity.

    A statement about values made on the exact model either holds of the
    floats as well because rounding is monotone (an ordering that is not
    strict, a bound), or is restricted to the runs in which no operation
    rounds, [target_steps] listing the operations.

    Effects.  Dictionaries are association lists of dynamically typed
    values, read with [get] as the code reads them with [dict.get]; a Python
    exception is the [Raise] outcome of a [result]; the one reading of the
    clock, [datetime.now()], is an argument of the function that takes
    it. *)

From Stdlib Require Import QArith Qabs Qreduction Qminmax Lqa.
From Stdlib Require Import ZArith Lia Bool List String Ascii.
From Stdlib Require PrimFloat.
Import ListNotations.

Set Warnings "-register-all".

(** ** Numbers *)

Module Num.

Inductive num : Type :=
| Fin (q : Q)
| PInf
| NInf
| NaN.

Definition Qltb (a b : Q) : bool := negb (Qle_bool b a).

Definition is_nan (x : num) : bool :=
  match x with NaN => true | _ => false end.

Definition is_finite (x : num) : bool :=
  match x with Fin _ => true | _ => false end.

(** Sign of a number that is not NaN, as a comparison with zero. *)
Definition sign (x : num) : comparison :=
  match x with
  | Fin q => q ?= 0
  | PInf => Gt
  | NInf => Lt
  | NaN => Eq
  end.

(** The infinity of a given sign; an [Eq] sign (zero times infinity, zero
    over zero) is the invalid operation. *)
Definition inf_of (c : comparison) : num :=
  match c with Gt => PInf | Lt => NInf | Eq => NaN end.

Definition cmp_mul (c d : comparison) : comparison :=
  match c, d with
  | Eq, _ | _, Eq => Eq
  | Gt, Gt | Lt, Lt => Gt
  | _, _ => Lt
  end.

Definition add (x y : num) : num :=
  match x, y with
  | NaN, _ | _, NaN => NaN
  | Fin a, Fin b => Fin (Qred (a + b))
  | PInf, NInf | NInf, PInf => NaN
  | PInf, _ | _, PInf => PInf
  | NInf, _ | _, NInf => NInf
  end.

Definition sub (x y : num) : num :=
  match x, y with
  | NaN, _ | _, NaN => NaN
  | Fin a, Fin b => Fin (Qred (a - b))
  | PInf, PInf | NInf, NInf => NaN
  | PInf, _ | _, NInf => PInf
  | NInf, _ | _, PInf => NInf
  end.

Definition mul (x y : num) : num :=
  match x, y with
  | NaN, _ | _, NaN => NaN
  | Fin a, Fin b => Fin (Qred (a * b))
  | _, _ => inf_of (cmp_mul (sign x) (sign y))
  end.

(** numpy's [float64] division: a zero divisor raises nothing, it gives an
    infinity of the dividend's sign, or NaN for zero over zero. *)
Definition div (x y : num) : num :=
  match x, y with
  | NaN, _ | _, NaN => NaN
  | Fin a, Fin b =>
      if Qeq_bool b 0 then inf_of (a ?= 0) else Fin (Qred (a / b))
  | Fin _, _ => Fin 0
  | _, Fin b => if Qeq_bool b 0 then x else inf_of (cmp_mul (sign x) (b ?= 0))
  | _, _ => NaN
  end.

Definition abs (x : num) : num :=
  match x with
  | Fin q => Fin (Qred (Qabs q))
  | PInf | NInf => PInf
  | NaN => NaN
  end.

(** [x < y]; every comparison with NaN is false. *)
Definition ltb (x y : num) : bool :=
  match x, y with
  | NaN, _ | _, NaN => false
  | Fin a, Fin b => Qltb a b
  | NInf, NInf | PInf, _ | _, NInf => false
  | _, _ => true
  end.

(** [x == y]; NaN is equal to nothing, itself included. *)
Definition eqb (x y : num) : bool :=
  match x, y with
  | Fin a, Fin b => Qeq_bool a b
  | PInf, PInf | NInf, NInf => true
  | _, _ => false
  end.

(** Python's built-in [max(a, b)]: the first argument unless the second is
    strictly greater. *)
Definition max (a b : num) : num := if ltb a b then b else a.

(** Folding [max] or [min] over the values of a window, numpy style. *)
Definition maximum (l : list num) : num :=
  match l with
  | [] => NaN
  | x :: r => fold_left (fun m y => if ltb m y then y else m) r x
  end.

Definition minimum (l : list num) : num :=
  match l with
  | [] => NaN
  | x :: r => fold_left (fun m y => if ltb y m then y else m) r x
  end.

End Num.
Import Num.

Declare Scope num_scope.
Delimit Scope num_scope with num.
Bind Scope num_scope with num.
Infix "+" := Num.add : num_scope.
Infix "-" := Num.sub : num_scope.
Infix "*" := Num.mul : num_scope.
Infix "/" := Num.div : num_scope.
Infix "<?" := Num.ltb : num_scope.
Infix "==?" := Num.eqb (at level 70) : num_scope.

(** ** Python values, dictionaries and exceptions *)

Open Scope string_scope.

Module Py.

(** The values that flow through the modelled functions.  A [PDict] keeps
    its items in insertion order, as a Python [dict] does. *)
Inductive pyval : Type :=
| PNone
| PBool (b : bool)
| PNum (x : num)
| PStr (s : string)
| PList (l : list pyval)
| PDict (d : list (string * pyval)).

Definition dict : Type := list (string * pyval).

(** [d.get(k)] as an option, and [d.get(k, dflt)]. *)
Fixpoint lookup (d : dict) (k : string) : option pyval :=
  match d with
  | [] => None
  | (k', v) :: r => if String.eqb k' k then Some v else lookup r k
  end.

Definition get (d : dict) (k : string) (dflt : pyval) : pyval :=
  match lookup d k with Some v => v | None => dflt end.

(** [d.get(k)] with no default gives [None] for a missing key. *)
Definition get_none (d : dict) (k : string) : pyval := get d k PNone.

(** Truth value of an object in a condition. *)
Definition truthy (v : pyval) : bool :=
  match v with
  | PNone => false
  | PBool b => b
  | PNum x => negb (x ==? Fin 0)%num
  | PStr s => negb (String.eqb s "")
  | PList l => match l with [] => false | _ => true end
  | PDict d => match d with [] => false | _ => true end
  end.

(** [v == s] for a string literal [s]. *)
Definition eq_str (v : pyval) (s : string) : bool :=
  match v with PStr t => String.eqb t s | _ => false end.

Inductive exn : Type :=
| TypeError
| IndexError.

Inductive result (A : Type) : Type :=
| Ok (a : A)
| Raise (e : exn).
Arguments Ok {A} a.
Arguments Raise {A} e.

Definition bind {A B} (m : result A) (f : A -> result B) : result B :=
  match m with Ok a => f a | Raise e => Raise e end.

(** A value used as an operand of float arithmetic or of an ordering
    comparison with a float: numbers and booleans are accepted, anything
    else is a [TypeError]. *)
Definition as_num (v : pyval) : result num :=
  match v with
  | PNum x => Ok x
  | PBool b => Ok (Fin (if b then 1 else 0))
  | _ => Raise TypeError
  end.

(** [sep.join(l)]. *)
Fixpoint join (sep : string) (l : list string) : string :=
  match l with
  | [] => ""
  | [s] => s
  | s :: r => s ++ sep ++ join sep r
  end.

End Py.
Import Py.

Notation "x <- m ;; k" := (Py.bind m (fun x => k))
  (at level 61, m at next level, right associativity).

(** ** [technical_indicators.py] *)

Module TechnicalAnalysis.

(** One row of the OHLCV frame the class is built on. *)
Record Bar : Type := {
  timestamp : Z;
  open : num;
  high : num;
  low : num;
  close : num;
  volume : num
}.

(** [TechnicalAnalysis] holds one attribute, the frame [self.df]. *)
Record t : Type := { df : list Bar }.

(** [series.iloc[-1]]: the last value, [IndexError] on an empty series. *)
Fixpoint iloc_last (s : list num) : result num :=
  match s with
  | [] => Raise IndexError
  | [x] => Ok x
  | _ :: r => iloc_last r
  end.

(** The value of [series.rolling(w).agg()] at the row that ends the prefix
    [pre].  pandas replaces the infinite values of the series by NaN before
    it aggregates, and requires [w] observations that are not NaN: a window
    that is incomplete, or holds a value that is not finite, gives NaN. *)
Definition window_value (agg : list num -> num) (w : nat) (pre : list num) : num :=
  let win := skipn (List.length pre - w) pre in
  if (List.length pre <? w)%nat then NaN
  else if existsb (fun x => negb (is_finite x)) win then NaN
  else agg win.

(** [series.rolling(w).agg()]: one value per row. *)
Definition rolling (agg : list num -> num) (w : nat) (s : list num) : list num :=
  map (fun i => window_value agg w (firstn (S i) s)) (seq 0 (List.length s)).

(** Element-wise difference of two series over the same index. *)
Definition series_sub (a b : list num) : list num :=
  map (fun p => (fst p - snd p)%num) (combine a b).

Record Targets : Type := {
  stop_loss : num;
  take_profit : num;
  risk_distance : num;
  reward_distance : num
}.

(** Lines 141-142: the range of the last 14 bars over the last close. *)
Definition current_atr (self : t) : result num :=
  let atr := series_sub (rolling maximum 14 (map high (df self)))
                        (rolling minimum 14 (map low (df self))) in
  a <- iloc_last atr ;;
  c <- iloc_last (map close (df self)) ;;
  Ok (a / c)%num.

Definition calculate_trade_targets (self : t) (current_price : num)
    (trend : string) (risk_reward_ratio : num) : result Targets :=
  current_atr <- current_atr self ;;
  let stop_distance := (current_price * current_atr * Fin 1.5)%num in
  let '(stop_loss, take_profit) :=
    if String.eqb trend "long" then
      ((current_price - stop_distance)%num,
       (current_price + stop_distance * risk_reward_ratio)%num)
    else
      ((current_price + stop_distance)%num,
       (current_price - stop_distance * risk_reward_ratio)%num) in
  Ok {| stop_loss := stop_loss;
        take_profit := take_profit;
        risk_distance := Num.abs (current_price - stop_loss);
        reward_distance := Num.abs (take_profit - current_price) |}.

End TechnicalAnalysis.

Module TA := TechnicalAnalysis.

(** ** [deepseek_client.py] *)

Module DeepSeekClient.

(** [str.lower()].  A text is a string of 8-bit characters; the ASCII
    capitals are mapped to their small letters and every other character
    is kept.  The keywords below are all in small ASCII letters.  Python
    lowers a few characters outside ASCII to ASCII letters (the Kelvin
    sign to [k], the dotted capital I to [i] and a combining dot): a text
    that spells a keyword with one of them is outside this model. *)
Definition lower_ascii (c : ascii) : ascii :=
  let n := nat_of_ascii c in
  if ((65 <=? n) && (n <=? 90))%nat then ascii_of_nat (n + 32) else c.

Fixpoint lower (s : string) : string :=
  match s with
  | EmptyString => EmptyString
  | String c r => String (lower_ascii c) (lower r)
  end.

(** [word in content]: [word] occurs somewhere in [content]. *)
Fixpoint contains (content word : string) : bool :=
  String.prefix word content ||
  match content with
  | EmptyString => false
  | String _ r => contains r word
  end.

(** [sum(1 for word in keywords if word in content)]. *)
Definition keyword_count (keywords : list string) (content : string) : nat :=
  list_sum (map (fun _ => 1%nat) (filter (contains content) keywords)).

Definition bullish_keywords : list string :=
  ["bullish"; "upward"; "growth"; "increase"; "higher"].

Definition bearish_keywords : list string :=
  ["bearish"; "downward"; "decline"; "decrease"; "lower"].

Definition _extract_sentiment (content : string) : string :=
  let content := lower content in
  let bullish_count := keyword_count bullish_keywords content in
  let bearish_count := keyword_count bearish_keywords content in
  if (bearish_count <? bullish_count)%nat then "bullish"
  else if (bullish_count <? bearish_count)%nat then "bearish"
  else "neutral".

End DeepSeekClient.

(** ** [trading_signals.py] *)

Module SignalGenerator.

(** The attributes of [SignalGenerator] that its methods read; the two
    network clients play no part in the functions modelled here. *)
Record t : Type := {
  timeframe : string;
  risk_reward_ratio : num;
  min_confidence_threshold : num
}.

(** [__init__]. *)
Definition init (timeframe : string) : t :=
  {| timeframe := timeframe;
     risk_reward_ratio := Fin 2;
     min_confidence_threshold := Fin 0.7 |}.

Definition flag (technical_signals : dict) (k : string) : bool :=
  truthy (get technical_signals k (PBool false)).

(** The guard of the first [if] of [_get_entry_timing]; the comparison is
    evaluated only when the left operand of [and] is true. *)
Definition entry_guard (technical_signals ai_analysis : dict) : result bool :=
  if flag technical_signals "high_volume" then
    c <- as_num (get ai_analysis "confidence_score" (PNum (Fin 0))) ;;
    Ok (Fin 0.8 <? c)%num
  else Ok false.

(** The list [conditions] built by the three appends. *)
Definition entry_conditions (technical_signals : dict) : list string :=
  let conditions := [] in
  let conditions :=
    if flag technical_signals "rsi_oversold"
    then (conditions ++ ["wait for RSI recovery"])%list else conditions in
  let conditions :=
    if flag technical_signals "rsi_overbought"
    then (conditions ++ ["wait for RSI pullback"])%list else conditions in
  let conditions :=
    if negb (flag technical_signals "high_volume")
    then (conditions ++ ["wait for volume confirmation"])%list else conditions in
  conditions.

Definition _get_entry_timing (technical_signals ai_analysis : dict)
    : result string :=
  g <- entry_guard technical_signals ai_analysis ;;
  if g then Ok "immediate"
  else
    let conditions := entry_conditions technical_signals in
    Ok (match conditions with
        | [] => "immediate"
        | _ => "delayed: " ++ join ", " conditions
        end).

(** Lines 83-100: the two accumulators after the technical scoring. *)
Definition technical_scores (technical_signals : dict) : num * num :=
  let bull_score := Fin 0 in
  let bear_score := Fin 0 in
  let bull_score :=
    if flag technical_signals "uptrend"
    then (bull_score + Fin 0.25)%num else bull_score in
  let bear_score :=
    if flag technical_signals "downtrend"
    then (bear_score + Fin 0.25)%num else bear_score in
  let bull_score :=
    if flag technical_signals "golden_cross"
    then (bull_score + Fin 0.15)%num else bull_score in
  let bear_score :=
    if flag technical_signals "death_cross"
    then (bear_score + Fin 0.15)%num else bear_score in
  let bull_score :=
    if flag technical_signals "rsi_oversold"
    then (bull_score + Fin 0.1)%num else bull_score in
  let bear_score :=
    if flag technical_signals "rsi_overbought"
    then (bear_score + Fin 0.1)%num else bear_score in
  (bull_score, bear_score).

(** Lines 102-107: the sentiment contribution. *)
Definition ai_scores (ai_analysis : dict) (scores : num * num)
    : result (num * num) :=
  let '(bull_score, bear_score) := scores in
  let ai_confidence := get ai_analysis "confidence_score" (PNum (Fin 0.5)) in
  if eq_str (get_none ai_analysis "sentiment") "bullish" then
    c <- as_num ai_confidence ;;
    Ok ((bull_score + Fin 0.5 * c)%num, bear_score)
  else if eq_str (get_none ai_analysis "sentiment") "bearish" then
    c <- as_num ai_confidence ;;
    Ok (bull_score, (bear_score + Fin 0.5 * c)%num)
  else Ok (bull_score, bear_score).

Definition final_scores (technical_signals ai_analysis : dict)
    : result (num * num) :=
  ai_scores ai_analysis (technical_scores technical_signals).

(** Lines 110-114: [None], ['buy'] or ['sell']. *)
Definition signal_type (self : t) (bull_score bear_score : num)
    : option string :=
  if (bear_score <? bull_score)%num
     && (min_confidence_threshold self <? bull_score)%num
  then Some "buy"
  else if (bull_score <? bear_score)%num
          && (min_confidence_threshold self <? bear_score)%num
  then Some "sell"
  else None.

(** [_generate_final_signal].  [now] is the string that
    [datetime.now().isoformat()] gives when the record is built. *)
Definition _generate_final_signal (self : t) (now : string)
    (current_price : num) (technical_signals ai_analysis : dict)
    (ta : TA.t) : result dict :=
  scores <- final_scores technical_signals ai_analysis ;;
  let '(bull_score, bear_score) := scores in
  match signal_type self bull_score bear_score with
  | None =>
      Ok [ ("timestamp", PStr now);
           ("signal", PStr "neutral");
           ("message", PStr "No clear trading opportunity");
           ("confidence", PNum (Num.max bull_score bear_score)) ]
  | Some signal_type =>
      targets <- TA.calculate_trade_targets ta current_price
                   (if String.eqb signal_type "buy" then "long" else "short")
                   (risk_reward_ratio self) ;;
      let key_levels := get ai_analysis "key_levels" (PList []) in
      timing <- _get_entry_timing technical_signals ai_analysis ;;
      Ok [ ("timestamp", PStr now);
           ("signal", PStr signal_type);
           ("current_price", PNum current_price);
           ("confidence",
             PNum (if String.eqb signal_type "buy"
                   then bull_score else bear_score));
           ("entry", PDict [ ("price", PNum current_price);
                             ("type", PStr "market");
                             ("timing", PStr timing) ]);
           ("targets", PDict [ ("stop_loss", PNum (TA.stop_loss targets));
                               ("take_profit", PNum (TA.take_profit targets)) ]);
           ("risk_reward_ratio", PNum (risk_reward_ratio self));
           ("key_levels", key_levels);
           ("technical_factors",
             PDict [ ("trend",
                       PStr (if flag technical_signals "uptrend"
                             then "bullish" else "bearish"));
                     ("rsi_condition",
                       PStr (if flag technical_signals "rsi_oversold"
                             then "oversold"
                             else if flag technical_signals "rsi_overbought"
                             then "overbought" else "neutral"));
                     ("volume_condition",
                       PStr (if flag technical_signals "high_volume"
                             then "high" else "normal")) ]);
           ("ai_analysis",
             PDict [ ("sentiment", get_none ai_analysis "sentiment");
                     ("confidence", get_none ai_analysis "confidence_score");
                     ("recommendations",
                       get ai_analysis "recommendations" (PList [])) ]) ]
  end.

End SignalGenerator.

Module SG := SignalGenerator.
Module DS := DeepSeekClient.

(** ** Vocabulary of the properties *)

(** What a rule adds to a score: its weight when it fires, nothing
    otherwise. *)
Definition contribution (fires : bool) (w : Q) : Q := if fires then w else 0.

(** The confidence the scoring step works with, and the one the entry
    timing works with: the verdict's [confidence_score], or the default of
    the step when the key is missing. *)
Definition scoring_confidence (ai_analysis : dict) : result num :=
  as_num (get ai_analysis "confidence_score" (PNum (Fin 0.5))).

Definition timing_confidence (ai_analysis : dict) : result num :=
  as_num (get ai_analysis "confidence_score" (PNum (Fin 0))).

(** A verdict whose [confidence_score], when present, is a number. *)
Definition confidence_ok (ai_analysis : dict) : Prop :=
  match lookup ai_analysis "confidence_score" with
  | None => True
  | Some v => exists c, as_num v = Ok c
  end.

Definition is_bullish (ai_analysis : dict) : bool :=
  eq_str (get_none ai_analysis "sentiment") "bullish".

Definition is_bearish (ai_analysis : dict) : bool :=
  eq_str (get_none ai_analysis "sentiment") "bearish".

(** A frame of [n] identical bars followed by one last bar. *)
Definition mk_bar (h l c : Q) : TA.Bar :=
  {| TA.timestamp := 0; TA.open := Fin c; TA.high := Fin h;
     TA.low := Fin l; TA.close := Fin c; TA.volume := Fin 1 |}.

Definition mk_frame (n : nat) (b last : TA.Bar) : TA.t :=
  {| TA.df := (repeat b n ++ [last])%list |}.

(** The scenario of the specification: uptrend and golden cross, a bullish
    verdict of confidence 0.9. *)
Definition scenario_technical : dict :=
  [("uptrend", PBool true); ("golden_cross", PBool true)].

Definition scenario_sentiment : dict :=
  [("sentiment", PStr "bullish"); ("confidence_score", PNum (Fin 0.9))].

(** The last fourteen rows of a column or of a frame. *)
Definition last14 {A : Type} (s : list A) : list A :=
  skipn (List.length s - 14) s.

(** A bar whose high and low are finite numbers. *)
Definition finite_range (b : TA.Bar) : Prop :=
  is_finite (TA.high b) = true /\ is_finite (TA.low b) = true.

(** Frames used as examples: fourteen bars with a range of 9 to 12 and a
    last close of 10; the same with a last close of 0; fourteen flat bars;
    three bars only. *)
Definition frame_regular : TA.t :=
  mk_frame 13 (mk_bar 11 9 10) (mk_bar 12 10 10).

Definition frame_zero_close : TA.t :=
  mk_frame 13 (mk_bar 11 9 10) (mk_bar 12 10 0).

Definition frame_flat : TA.t :=
  mk_frame 13 (mk_bar 10 10 10) (mk_bar 10 10 10).


(** The caveats that apply, in the order of the three tests. *)
Definition caveats (technical_signals : dict) : list string :=
  map snd
    (filter fst
       [ (SG.flag technical_signals "rsi_oversold", "wait for RSI recovery");
         (SG.flag technical_signals "rsi_overbought", "wait for RSI pullback");
         (negb (SG.flag technical_signals "high_volume"),
          "wait for volume confirmation") ]).

(** The reading of the specification's words for the sentiment, "counting
    occurrences" of the keywords: every position at which a keyword starts
    counts, so a keyword that is repeated counts as many times. *)
Fixpoint spec_occurrences (content word : string) : nat :=
  (if String.prefix word content then 1 else 0)
  + match content with
    | EmptyString => 0
    | String _ r => spec_occurrences r word
    end.

Definition spec_occurrence_count (keywords : list string) (content : string)
    : nat :=
  list_sum (map (spec_occurrences content) keywords).

Definition spec_extract_sentiment (content : string) : string :=
  let content := DS.lower content in
  let bullish_count := spec_occurrence_count DS.bullish_keywords content in
  let bearish_count := spec_occurrence_count DS.bearish_keywords content in
  if (bearish_count <? bullish_count)%nat then "bullish"
  else if (bullish_count <? bearish_count)%nat then "bearish"
  else "neutral".

(** The number of keywords of a set that occur at least once. *)
Definition distinct_count (keywords : list string) (content : string) : nat :=
  List.length
    (filter (fun w => (0 <? spec_occurrences content w)%nat) keywords).

Definition text_repeated : string :=
  "Bullish, bullish, bullish; a bearish turn would take it lower".

(** * The rest of the code *)

(** ** [deepseek_client.py]: confidence, price levels, recommendations,
    and the parsing of a response *)

Module DeepSeekResponse.

Import DeepSeekClient.

Definition high_confidence : list string :=
  ["confident"; "strong"; "clear"; "definitely"].

Definition medium_confidence : list string :=
  ["likely"; "probable"; "possible"].

Definition low_confidence : list string :=
  ["uncertain"; "unclear"; "might"; "maybe"].

(** A Python [int] used in float arithmetic. *)
Definition of_nat (n : nat) : num := Fin (inject_Z (Z.of_nat n)).

Definition _extract_confidence (content : string) : num :=
  let content := lower content in
  let high_count := keyword_count high_confidence content in
  let medium_count := keyword_count medium_confidence content in
  let low_count := keyword_count low_confidence content in
  let total := (high_count + medium_count + low_count)%nat in
  if (total =? 0)%nat then Fin 0.5
  else ((of_nat high_count * Fin 1.0 + of_nat medium_count * Fin 0.6
         + of_nat low_count * Fin 0.2) / of_nat total)%num.

(** The pattern of [_extract_key_levels], on a text of 8-bit characters: a
    dollar sign, then the group, made of one or more digits, an optional
    point and any number of digits.  A digit is an ASCII digit. *)
Definition is_digit (c : ascii) : bool :=
  let n := nat_of_ascii c in ((48 <=? n) && (n <=? 57))%nat.

(** The longest prefix of digits, and what follows it. *)
Fixpoint span_digits (s : string) : string * string :=
  match s with
  | EmptyString => (EmptyString, EmptyString)
  | String c r =>
      if is_digit c
      then let '(ds, rest) := span_digits r in (String c ds, rest)
      else (EmptyString, s)
  end.

(** A match of the group at the start of [s]: the group and the rest of
    the text.  Each quantifier is greedy and none can make a later one
    fail, so the first attempt is the match. *)
Definition match_level (s : string) : option (string * string) :=
  let '(int_part, r1) := span_digits s in
  match int_part with
  | EmptyString => None
  | _ =>
      match r1 with
      | String "."%char r2 =>
          let '(frac_part, r3) := span_digits r2 in
          Some (int_part ++ "." ++ frac_part, r3)
      | _ => Some (int_part, r1)
      end
  end.

(** [re.findall]: the leftmost match, then the search goes on after it.
    [fuel] bounds the number of steps; the length of the text is enough. *)
Fixpoint findall_from (fuel : nat) (s : string) : list string :=
  match fuel with
  | O => []
  | S fuel =>
      match s with
      | EmptyString => []
      | String c r =>
          if Ascii.eqb c "$"%char then
            match match_level r with
            | Some (m, rest) => m :: findall_from fuel rest
            | None => findall_from fuel r
            end
          else findall_from fuel r
      end
  end.

Definition findall_levels (content : string) : list string :=
  findall_from (String.length content) content.

Definition digit_value (c : ascii) : Z := Z.of_nat (nat_of_ascii c - 48).

Fixpoint digits_value (acc : Z) (s : string) : Z :=
  match s with
  | EmptyString => acc
  | String c r => digits_value (10 * acc + digit_value c) r
  end.

(** [float(level)] for a group of the pattern: digits, then possibly a
    point and more digits. *)
Definition float_of_level (level : string) : num :=
  let '(int_part, r) := span_digits level in
  match r with
  | String "."%char frac_part =>
      Fin (Qred (inject_Z (digits_value 0 int_part)
                 + inject_Z (digits_value 0 frac_part)
                   / inject_Z (10 ^ Z.of_nat (String.length frac_part))))
  | _ => Fin (inject_Z (digits_value 0 int_part))
  end.

Definition _extract_key_levels (content : string) : list num :=
  let levels := findall_levels content in
  match levels with
  | [] => []
  | _ => map float_of_level levels
  end.

Definition _extract_recommendations (content : string) : list string :=
  let recommendations := [] in
  let recommendations :=
    if contains (lower content) "buy" || contains (lower content) "long"
    then (recommendations ++ ["consider_long"])%list else recommendations in
  let recommendations :=
    if contains (lower content) "sell" || contains (lower content) "short"
    then (recommendations ++ ["consider_short"])%list else recommendations in
  let recommendations :=
    if contains (lower content) "wait" || contains (lower content) "hold"
    then (recommendations ++ ["wait_for_confirmation"])%list
    else recommendations in
  recommendations.

(** [obj.get(k, dflt)] on a value of any type: only a [dict] has the
    method; [None] here is the [AttributeError] of the others. *)
Definition py_get (obj : pyval) (k : string) (dflt : pyval) : option pyval :=
  match obj with
  | PDict d => Some (get d k dflt)
  | _ => None
  end.

(** [obj[0]]: the first item of a list, the first character of a string;
    [None] is the [IndexError] of an empty sequence, the [KeyError] of a
    dict (its keys are strings) or the [TypeError] of the other types. *)
Definition py_first (obj : pyval) : option pyval :=
  match obj with
  | PList (x :: _) => Some x
  | PStr (String c _) => Some (PStr (String c EmptyString))
  | _ => None
  end.

(** The [content] that [_parse_ai_response] reads in the response. *)
Definition response_content (response : pyval) : option pyval :=
  match py_get response "choices" (PList [PDict []]) with
  | None => None
  | Some choices =>
      match py_first choices with
      | None => None
      | Some choice =>
          match py_get choice "message" (PDict []) with
          | None => None
          | Some message => py_get message "content" (PStr "")
          end
      end
  end.

(** [_parse_ai_response]: every exception raised in its body is caught and
    gives [None].  A [content] that is not a string raises at its first
    method call, [content.lower()].  [now] is the clock reading of the
    timestamp. *)
Definition _parse_ai_response (now : string) (response : pyval)
    : option dict :=
  match response_content response with
  | Some (PStr content) =>
      Some [ ("timestamp", PStr now);
             ("raw_analysis", PStr content);
             ("sentiment", PStr (_extract_sentiment content));
             ("confidence_score", PNum (_extract_confidence content));
             ("key_levels", PList (map PNum (_extract_key_levels content)));
             ("recommendations",
               PList (map PStr (_extract_recommendations content))) ]
  | _ => None
  end.

(** [analyze_market_sentiment], given the outcome of the query: [None]
    when [_query_deepseek] raised, the decoded JSON otherwise.  The prompt
    is built from dictionaries the caller has made and does not raise. *)
Definition analyze_market_sentiment (now : string) (query : option pyval)
    : option dict :=
  match query with
  | None => None
  | Some response => _parse_ai_response now response
  end.

End DeepSeekResponse.

Module DR := DeepSeekResponse.

(** ** [technical_indicators.py]: [generate_signals] *)

Module SignalFrame.

(** A row of [self.df] once [add_all_indicators] has run: the bar and the
    indicator columns that [generate_signals] reads.  The columns come from
    the [ta] library and are taken as they are; a value it could not
    compute yet is NaN. *)
Record Row : Type := {
  bar : TA.Bar;
  ema_20 : num;
  ema_50 : num;
  ema_200 : num;
  rsi : num;
  macd_hist : num;
  volume_sma : num
}.

(** [x <= y] on floats; false when either side is NaN. *)
Definition leb (x y : num) : bool :=
  match x, y with
  | NaN, _ | _, NaN => false
  | Fin a, Fin b => Qle_bool a b
  | NInf, _ | _, PInf => true
  | _, _ => false
  end.

(** [column.shift(1)] at a row: the value of the row before, NaN at the
    first row. *)
Definition shifted (column : Row -> num) (prev : option Row) : num :=
  match prev with
  | Some p => column p
  | None => NaN
  end.

(** The row of [signals] at a row of the frame; [prev] is the row before.
    The timestamp is carried as its number of milliseconds. *)
Definition signal_row (prev : option Row) (r : Row) : dict :=
  [ ("timestamp", PNum (Fin (inject_Z (TA.timestamp (bar r)))));
    ("rsi_oversold", PBool (rsi r <? Fin 30)%num);
    ("rsi_overbought", PBool (Fin 70 <? rsi r)%num);
    ("macd_crossover",
      PBool ((Fin 0 <? macd_hist r)%num
             && (shifted macd_hist prev <? Fin 0)%num));
    ("macd_crossunder",
      PBool ((macd_hist r <? Fin 0)%num
             && (Fin 0 <? shifted macd_hist prev)%num));
    ("golden_cross",
      PBool ((ema_50 r <? ema_20 r)%num
             && leb (shifted ema_20 prev) (shifted ema_50 prev)));
    ("death_cross",
      PBool ((ema_20 r <? ema_50 r)%num
             && leb (shifted ema_50 prev) (shifted ema_20 prev)));
    ("high_volume",
      PBool (volume_sma r * Fin 1.5 <? TA.volume (bar r))%num);
    ("uptrend",
      PBool ((ema_50 r <? ema_20 r)%num
             && (ema_200 r <? ema_50 r)%num
             && (ema_20 r <? TA.close (bar r))%num));
    ("downtrend",
      PBool ((ema_20 r <? ema_50 r)%num
             && (ema_50 r <? ema_200 r)%num
             && (TA.close (bar r) <? ema_20 r)%num)) ].

Fixpoint signals_from (prev : option Row) (rows : list Row) : list dict :=
  match rows with
  | [] => []
  | r :: rest => signal_row prev r :: signals_from (Some r) rest
  end.

(** [generate_signals]: one row of flags per row of the frame. *)
Definition generate_signals (rows : list Row) : list dict :=
  signals_from None rows.

(** [technical_signals.iloc[-1].to_dict()]. *)
Fixpoint latest (signals : list dict) : result dict :=
  match signals with
  | [] => Raise IndexError
  | [d] => Ok d
  | _ :: rest => latest rest
  end.

(** The [TechnicalAnalysis] object built on the frame. *)
Definition analysis (rows : list Row) : TA.t := {| TA.df := map bar rows |}.

End SignalFrame.

Module SF := SignalFrame.

(** ** [trading_signals.py]: [generate_trading_signal] *)

Module Cycle.

(** [generate_trading_signal], given what the outside world answers:
    - [klines]: the frame of [get_historical_klines], [None] when the
      fetch gave [None];
    - [current_price], [market_stats]: the answers of the two other calls
      to the exchange;
    - [add_all_indicators]: what [ta.add_all_indicators()] leaves in
      [ta.df] for a given frame, [None] when it raises.  The columns are
      computed by the indicator library [ta], which is not part of the
      repository; the method asks it, among others, for
      [volume.volume_sma_indicator], and raises an [AttributeError] when
      the installed library has no such function;
    - [query]: the outcome of the query to the model, as in
      [analyze_market_sentiment];
    - [now_ai], [now]: the clock readings of the two timestamps.
    Every exception is caught and gives [None]. *)
Definition generate_trading_signal (self : SG.t) (now_ai now : string)
    (klines : option (list TA.Bar))
    (add_all_indicators : list TA.Bar -> option (list SF.Row))
    (current_price : option num)
    (market_stats : option dict) (query : option pyval) : option dict :=
  match klines with
  | None => None
  | Some df =>
      match current_price, market_stats with
      | Some current_price, Some market_stats =>
          match add_all_indicators df with
          | None => None
          | Some rows =>
              match SF.latest (SF.generate_signals rows) with
              | Raise _ => None
              | Ok latest_signals =>
                  match lookup market_stats "price_change_percent",
                        lookup market_stats "volume" with
                  | Some _, Some _ =>
                      match DR.analyze_market_sentiment now_ai query with
                      | None => None
                      | Some ai_analysis =>
                          match SG._generate_final_signal self now
                                  current_price latest_signals ai_analysis
                                  (SF.analysis rows) with
                          | Ok signal => Some signal
                          | Raise _ => None
                          end
                      end
                  | _, _ => None
                  end
              end
          end
      | _, _ => None
      end
  end.

End Cycle.

(** ** [main.py] *)

Module TradingBot.

(** [default_config]; Python's [int] and [float] are both numbers here. *)
Definition default_config : dict :=
  [ ("timeframe", PStr "1h");
    ("lookback_days", PNum (Fin 30));
    ("update_interval", PNum (Fin 300));
    ("signal_threshold", PNum (Fin 0.7));
    ("risk_reward_ratio", PNum (Fin 2.0));
    ("notifications", PBool true) ].

(** [d[k] = v]: the value of an existing key is replaced where it stands,
    a new key goes to the end. *)
Fixpoint dict_set (d : dict) (k : string) (v : pyval) : dict :=
  match d with
  | [] => [(k, v)]
  | (k', v') :: r =>
      if String.eqb k' k then (k, v) :: r else (k', v') :: dict_set r k v
  end.

(** The display [{**a, **b}]. *)
Definition merge (a b : dict) : dict :=
  fold_left (fun d kv => dict_set d (fst kv) (snd kv)) b a.

(** What [_load_config] finds at the path of the configuration. *)
Inductive config_file : Type :=
| NoFile                    (* [os.path.exists] is false *)
| Unreadable                (* [open] or [json.load] raises *)
| Loaded (v : pyval).       (* the decoded JSON *)

(** [_load_config]: unpacking a value that is not a mapping raises a
    [TypeError], caught like the others. *)
Definition _load_config (file : config_file) : dict :=
  match file with
  | Loaded (PDict loaded) => merge default_config loaded
  | _ => default_config
  end.

(** The state of a [TradingBot]. *)
Record t : Type := {
  config : dict;
  signal_generator : SG.t
}.

(** [__init__], for a configuration whose timeframe is a string ([None]
    stands for the other configurations: the generator of the model keeps
    a string). *)
Definition init (file : config_file) : option t :=
  let config := _load_config file in
  match lookup config "timeframe" with
  | Some (PStr timeframe) =>
      Some {| config := config; signal_generator := SG.init timeframe |}
  | _ => None
  end.

(** The exceptions of [_print_signal]. *)
Inductive print_error : Type :=
| KeyError (k : string)
| TypeErr
| ValueErr
| AttributeErr.

Inductive outcome (A : Type) : Type :=
| Done (a : A)
| Fails (e : print_error).
Arguments Done {A} a.
Arguments Fails {A} e.

Definition and_then {A B} (m : outcome A) (f : A -> outcome B) : outcome B :=
  match m with Done a => f a | Fails e => Fails e end.

(** [obj[k]] for a string key. *)
Definition subscript (obj : pyval) (k : string) : outcome pyval :=
  match obj with
  | PDict d =>
      match lookup d k with
      | Some v => Done v
      | None => Fails (KeyError k)
      end
  | _ => Fails TypeErr
  end.

(** [f"{v:.4f}"], [f"{v:.1f}"] and [f"{v:.2%}"]: a number is formatted, a
    string refuses the format code, the other types refuse any format
    string. *)
Definition format_float (v : pyval) : outcome unit :=
  match v with
  | PNum _ | PBool _ => Done tt
  | PStr _ => Fails ValueErr
  | _ => Fails TypeErr
  end.

(** [v.upper()]. *)
Definition upper_ok (v : pyval) : outcome unit :=
  match v with
  | PStr _ => Done tt
  | _ => Fails AttributeErr
  end.

Fixpoint each (f : pyval -> outcome unit) (l : list pyval) : outcome unit :=
  match l with
  | [] => Done tt
  | x :: r => and_then (f x) (fun _ => each f r)
  end.

(** [", ".join(v)] for a value that is true: the items of a list must be
    strings; a string gives its characters and a dict its keys; a number
    cannot be iterated. *)
Definition join_strings (v : pyval) : outcome unit :=
  match v with
  | PList l => each (fun x => match x with
                              | PStr _ => Done tt
                              | _ => Fails TypeErr
                              end) l
  | PStr _ | PDict _ => Done tt
  | _ => Fails TypeErr
  end.

(** [[f"${level:.4f}" for level in v]] for a value that is true. *)
Definition format_levels (v : pyval) : outcome unit :=
  match v with
  | PList l => each format_float l
  | PStr _ | PDict _ => Fails ValueErr
  | _ => Fails TypeErr
  end.

Notation "x <~ m ;; k" := (and_then m (fun x => k))
  (at level 61, m at next level, right associativity).

(** [_print_signal], as far as it can fail: the subscripts, method calls
    and format operations of its body, in the order in which they are
    evaluated.  The text it prints is not modelled. *)
Definition _print_signal (signal : option dict) : outcome unit :=
  match signal with
  | None | Some [] => Done tt
  | Some items =>
      let signal := PDict items in
      _ <~ subscript signal "timestamp" ;;
      s <~ subscript signal "signal" ;;
      _ <~ upper_ok s ;;
      c <~ subscript signal "confidence" ;;
      _ <~ format_float c ;;
      entry <~ subscript signal "entry" ;;
      price <~ subscript entry "price" ;;
      _ <~ format_float price ;;
      _ <~ subscript entry "timing" ;;
      targets <~ subscript signal "targets" ;;
      stop_loss <~ subscript targets "stop_loss" ;;
      _ <~ format_float stop_loss ;;
      take_profit <~ subscript targets "take_profit" ;;
      _ <~ format_float take_profit ;;
      ratio <~ subscript signal "risk_reward_ratio" ;;
      _ <~ format_float ratio ;;
      factors <~ subscript signal "technical_factors" ;;
      _ <~ subscript factors "trend" ;;
      _ <~ subscript factors "rsi_condition" ;;
      _ <~ subscript factors "volume_condition" ;;
      ai <~ subscript signal "ai_analysis" ;;
      _ <~ subscript ai "sentiment" ;;
      confidence <~ subscript ai "confidence" ;;
      _ <~ format_float confidence ;;
      recommendations <~ subscript ai "recommendations" ;;
      _ <~ (if truthy recommendations
            then join_strings recommendations else Done tt) ;;
      key_levels <~ subscript signal "key_levels" ;;
      if truthy key_levels then format_levels key_levels else Done tt
  end.

(** What a cycle of [run] does besides printing.  [_save_signal] catches
    the errors of the writing itself; the creation of the directory before
    it is taken to succeed. *)
Inductive event : Type :=
| SaveAttempted (signal : dict)   (* [_save_signal] opens a file for it *)
| Slept (seconds : num).

(** [time.sleep(v)]: the seconds slept, [None] when it raises (a value
    that is not a number, a negative number, NaN or an infinity). *)
Definition sleep_seconds (v : pyval) : option num :=
  match v with
  | PNum (Fin q) => if Qle_bool 0 q then Some (Fin q) else None
  | PBool b => Some (Fin (if b then 1 else 0))
  | _ => None
  end.

(** One turn of the loop of [run], given the [signal] that
    [generate_trading_signal] returns in it; any exception sends the turn
    to the handler, which sleeps 60 seconds. *)
Definition run_cycle (self : t) (signal : option dict) : list event :=
  match lookup (config self) "lookback_days" with
  | None => [Slept (Fin 60)]
  | Some _ =>
      match _print_signal signal with
      | Fails _ => [Slept (Fin 60)]
      | Done _ =>
          let saved :=
            match signal with
            | Some (item :: items) => [SaveAttempted (item :: items)]
            | _ => []
            end in
          match lookup (config self) "update_interval" with
          | None => (saved ++ [Slept (Fin 60)])%list
          | Some v =>
              match sleep_seconds v with
              | Some seconds => (saved ++ [Slept seconds])%list
              | None => (saved ++ [Slept (Fin 60)])%list
              end
          end
      end
  end.

End TradingBot.

Module TB := TradingBot.

(** ** Vocabulary of the further properties *)

(** The number of dollar signs of a text. *)
Fixpoint dollars (s : string) : nat :=
  match s with
  | EmptyString => 0
  | String c r => ((if Ascii.eqb c "$"%char then 1 else 0) + dollars r)%nat
  end.

(** A row with given close, moving averages and RSI; fourteen rows the
    last of which is an oversold uptrend; statistics of the exchange; an
    answer of the model. *)
Definition mk_row (c e20 e50 e200 r : Q) : SF.Row :=
  {| SF.bar := mk_bar (c + 1) (c - 1) c;
     SF.ema_20 := Fin e20; SF.ema_50 := Fin e50; SF.ema_200 := Fin e200;
     SF.rsi := Fin r; SF.macd_hist := Fin 1; SF.volume_sma := Fin 1 |}.

Definition rows_uptrend : list SF.Row :=
  (repeat (mk_row 10 9 9 8 50) 13 ++ [mk_row 11 10 9 8 25])%list.

Definition stats_example : dict :=
  [("price_change_percent", PNum (Fin 1)); ("volume", PNum (Fin 5))].

Definition response_bullish : pyval :=
  PDict [("choices",
          PList [PDict [("message",
            PDict [("content",
              PStr "Strong bullish growth, a clear upward move to $12.5; buy")])]])].

(** A bot with the default configuration. *)
Definition bot_default : TB.t :=
  {| TB.config := TB.default_config; TB.signal_generator := SG.init "1h" |}.

(** * The arithmetic of the machine

    ** The binary64 numbers among the rationals

    The modules above compute with exact rationals.  The program computes
    with binary64 floats: every operation returns the representable number
    nearest to the exact result.  Whatever is decided by comparing the
    inputs is the same in both; a sum, a difference or a product is the
    same when the exact result is itself a binary64 number, and differs by
    a rounding otherwise.

    [representable q]: the rational [q] is a binary64 number.  Written in
    lowest terms as [n / 2^k], with the leading bit of [n] at position
    [b], its exponent [b - k] is below 1024 and [n / 2^k] is a multiple of
    its unit in the last place, [2^(b - k - 52)] or [2^-1074] for a
    subnormal number. *)

Definition representable (q : Q) : bool :=
  let n := Z.abs (Qnum (Qred q)) in
  let d := Zpos (Qden (Qred q)) in
  let k := Z.log2 d in
  if (n =? 0)%Z then true
  else
    ((2 ^ k =? d)%Z &&
     (let e := (Z.log2 n - k)%Z in
      let ulp := Z.max (-1074) (e - 52) in
      (e <? 1024)%Z &&
      ((k + ulp <=? 0)%Z || (n mod 2 ^ (k + ulp) =? 0)%Z)))%bool.

Definition binary64 (x : num) : bool :=
  match x with Fin q => representable q | _ => true end.

(** The numbers [calculate_trade_targets] reads and the results of its
    operations, in the order in which it computes them, followed by the
    product of the risk distance and the ratio.  A run in which all of
    them are binary64 numbers is a run in which no operation rounds: the
    floats of the program are then the numbers of the model. *)
Definition target_steps (ta : TA.t) (current_price : num) (trend : string)
    (risk_reward_ratio : num) : list num :=
  let hi := TA.window_value maximum 14 (map TA.high (TA.df ta)) in
  let lo := TA.window_value minimum 14 (map TA.low (TA.df ta)) in
  let c := match TA.iloc_last (map TA.close (TA.df ta)) with
           | Ok c => c
           | Raise _ => NaN
           end in
  let atr := (hi - lo)%num in
  let current_atr := (atr / c)%num in
  let scaled := (current_price * current_atr)%num in
  let stop_distance := (scaled * Fin 1.5)%num in
  let reward := (stop_distance * risk_reward_ratio)%num in
  let long := String.eqb trend "long" in
  let stop_loss :=
    if long then (current_price - stop_distance)%num
    else (current_price + stop_distance)%num in
  let take_profit :=
    if long then (current_price + reward)%num
    else (current_price - reward)%num in
  let risk := (current_price - stop_loss)%num in
  [ current_price; risk_reward_ratio; hi; lo; c; atr; current_atr; scaled;
    stop_distance; stop_loss; reward; take_profit;
    risk; (take_profit - current_price)%num;
    (Num.abs risk * risk_reward_ratio)%num ].

(** Fourteen bars with a range of 9 to 12 and a last close of 8: with a
    price of 100 and a ratio of 2 every step is a binary64 number. *)
Definition frame_dyadic : TA.t :=
  mk_frame 13 (mk_bar 11 9 8) (mk_bar 12 10 8).

(** A record without the entries of the given keys. *)
Definition without_keys (keys : list string) (d : dict) : dict :=
  filter (fun kv => negb (existsb (String.eqb (fst kv)) keys)) d.

(** ** The scoring and the targets on binary64 floats

    The same lines of [_generate_final_signal] and of
    [calculate_trade_targets] as above, on the floats of the machine: a
    decimal literal of the code is the float nearest to it, and every
    operation rounds to nearest, ties to even. *)

Set Warnings "-inexact-float".

Module Binary64.

Import PrimFloat.

(** The values the scoring reads. *)
Inductive value : Type :=
| VNone
| VBool (b : bool)
| VFloat (x : float)
| VStr (s : string).

Definition dict : Type := list (string * value).

Fixpoint lookup (d : dict) (k : string) : option value :=
  match d with
  | [] => None
  | (k', v) :: r => if String.eqb k' k then Some v else lookup r k
  end.

Definition get (d : dict) (k : string) (dflt : value) : value :=
  match lookup d k with Some v => v | None => dflt end.

Definition get_none (d : dict) (k : string) : value := get d k VNone.

Definition truthy (v : value) : bool :=
  match v with
  | VNone => false
  | VBool b => b
  | VFloat x => negb (x =? 0)%float
  | VStr s => negb (String.eqb s "")
  end.

Definition eq_str (v : value) (s : string) : bool :=
  match v with VStr t => String.eqb t s | _ => false end.

(** An operand of float arithmetic: a float, or a boolean as 1.0 or 0.0;
    anything else is a [TypeError]. *)
Definition as_float (v : value) : result float :=
  match v with
  | VFloat x => Ok x
  | VBool b => Ok (if b then 1 else 0)%float
  | _ => Raise TypeError
  end.

(** The attributes of [SignalGenerator] that the arithmetic reads. *)
Record t : Type := {
  risk_reward_ratio : float;
  min_confidence_threshold : float
}.

(** [__init__], lines 13-14. *)
Definition init : t :=
  {| risk_reward_ratio := 2.0; min_confidence_threshold := 0.7 |}.

Definition flag (technical_signals : dict) (k : string) : bool :=
  truthy (get technical_signals k (VBool false)).

(** Lines 83-100. *)
Definition technical_scores (technical_signals : dict) : float * float :=
  let bull_score := 0%float in
  let bear_score := 0%float in
  let bull_score :=
    if flag technical_signals "uptrend"
    then (bull_score + 0.25)%float else bull_score in
  let bear_score :=
    if flag technical_signals "downtrend"
    then (bear_score + 0.25)%float else bear_score in
  let bull_score :=
    if flag technical_signals "golden_cross"
    then (bull_score + 0.15)%float else bull_score in
  let bear_score :=
    if flag technical_signals "death_cross"
    then (bear_score + 0.15)%float else bear_score in
  let bull_score :=
    if flag technical_signals "rsi_oversold"
    then (bull_score + 0.1)%float else bull_score in
  let bear_score :=
    if flag technical_signals "rsi_overbought"
    then (bear_score + 0.1)%float else bear_score in
  (bull_score, bear_score).

(** Lines 102-107. *)
Definition ai_scores (ai_analysis : dict) (scores : float * float)
    : result (float * float) :=
  let '(bull_score, bear_score) := scores in
  let ai_confidence := get ai_analysis "confidence_score" (VFloat 0.5) in
  if eq_str (get_none ai_analysis "sentiment") "bullish" then
    c <- as_float ai_confidence ;;
    Ok ((bull_score + 0.5 * c)%float, bear_score)
  else if eq_str (get_none ai_analysis "sentiment") "bearish" then
    c <- as_float ai_confidence ;;
    Ok (bull_score, (bear_score + 0.5 * c)%float)
  else Ok (bull_score, bear_score).

Definition final_scores (technical_signals ai_analysis : dict)
    : result (float * float) :=
  ai_scores ai_analysis (technical_scores technical_signals).

(** Lines 110-114. *)
Definition signal_type (self : t) (bull_score bear_score : float)
    : option string :=
  if (bear_score <? bull_score)%float
     && (min_confidence_threshold self <? bull_score)%float
  then Some "buy"
  else if (bull_score <? bear_score)%float
          && (min_confidence_threshold self <? bear_score)%float
  then Some "sell"
  else None.

(** Python's [max(a, b)]. *)
Definition max (a b : float) : float := if (a <? b)%float then b else a.

(** The entries [signal] and [confidence] of the record that
    [_generate_final_signal] builds: lines 116-122 for the neutral record,
    lines 136-139 for a directional one. *)
Definition signal_and_confidence (self : t)
    (technical_signals ai_analysis : dict) : result (string * float) :=
  scores <- final_scores technical_signals ai_analysis ;;
  let '(bull_score, bear_score) := scores in
  match signal_type self bull_score bear_score with
  | None => Ok ("neutral", max bull_score bear_score)
  | Some signal_type =>
      Ok (signal_type,
          if String.eqb signal_type "buy" then bull_score else bear_score)
  end.

(** The columns of the frame that [calculate_trade_targets] reads. *)
Record Bar : Type := {
  high : float;
  low : float;
  close : float
}.

Fixpoint iloc_last (s : list float) : result float :=
  match s with
  | [] => Raise IndexError
  | [x] => Ok x
  | _ :: r => iloc_last r
  end.

Definition maximum (l : list float) : float :=
  match l with
  | [] => nan
  | x :: r => fold_left (fun m y => if (m <? y)%float then y else m) r x
  end.

Definition minimum (l : list float) : float :=
  match l with
  | [] => nan
  | x :: r => fold_left (fun m y => if (y <? m)%float then y else m) r x
  end.

Definition window_value (agg : list float -> float) (w : nat)
    (pre : list float) : float :=
  let win := skipn (List.length pre - w) pre in
  if (List.length pre <? w)%nat then nan
  else if existsb (fun x => negb (is_finite x)) win then nan
  else agg win.

Definition rolling (agg : list float -> float) (w : nat) (s : list float)
    : list float :=
  map (fun i => window_value agg w (firstn (S i) s)) (seq 0 (List.length s)).

Definition series_sub (a b : list float) : list float :=
  map (fun p => (fst p - snd p)%float) (combine a b).

Record Targets : Type := {
  stop_loss : float;
  take_profit : float;
  risk_distance : float;
  reward_distance : float
}.

(** Lines 141-142. *)
Definition current_atr (df : list Bar) : result float :=
  let atr := series_sub (rolling maximum 14 (map high df))
                        (rolling minimum 14 (map low df)) in
  a <- iloc_last atr ;;
  c <- iloc_last (map close df) ;;
  Ok (a / c)%float.

(** Lines 144-159. *)
Definition calculate_trade_targets (df : list Bar) (current_price : float)
    (trend : string) (risk_reward_ratio : float) : result Targets :=
  current_atr <- current_atr df ;;
  let stop_distance := (current_price * current_atr * 1.5)%float in
  let '(stop_loss, take_profit) :=
    if String.eqb trend "long" then
      ((current_price - stop_distance)%float,
       (current_price + stop_distance * risk_reward_ratio)%float)
    else
      ((current_price + stop_distance)%float,
       (current_price - stop_distance * risk_reward_ratio)%float) in
  Ok {| stop_loss := stop_loss;
        take_profit := take_profit;
        risk_distance := abs (current_price - stop_loss);
        reward_distance := abs (take_profit - current_price) |}.

(** The contributions that fire, in the order of the code, and their sum
    from 0, added one after the other. *)
Definition fired (l : list (bool * float)) : list float :=
  map snd (filter fst l).

Definition total (l : list float) : float := fold_left add l 0%float.

(** The confidence the scoring works with. *)
Definition scoring_confidence (ai_analysis : dict) : result float :=
  as_float (get ai_analysis "confidence_score" (VFloat 0.5)).

Definition is_bullish (ai_analysis : dict) : bool :=
  eq_str (get_none ai_analysis "sentiment") "bullish".

Definition is_bearish (ai_analysis : dict) : bool :=
  eq_str (get_none ai_analysis "sentiment") "bearish".

(** The scenario of the specification. *)
Definition scenario_technical : dict :=
  [("uptrend", VBool true); ("golden_cross", VBool true)].

Definition scenario_sentiment : dict :=
  [("sentiment", VStr "bullish"); ("confidence_score", VFloat 0.9)].

(** Fourteen equal bars. *)
Definition frame (h l c : float) : list Bar :=
  repeat {| high := h; low := l; close := c |} 14.

End Binary64.

Module B64 := Binary64.

(** * Properties *)

(** ** Arithmetic of [num] *)

Section NumFacts.

Lemma Qltb_lt (a b : Q) : Qltb a b = true <-> a < b.
Proof.
  unfold Qltb. rewrite negb_true_iff.
  split; intro H.
  - apply Qnot_le_lt. intro L. apply Qle_bool_iff in L. congruence.
  - destruct (Qle_bool b a) eqn:E; trivial.
    apply Qle_bool_iff in E. exfalso. exact (Qlt_not_le _ _ H E).
Qed.

Lemma Qltb_ge (a b : Q) : Qltb a b = false <-> b <= a.
Proof.
  unfold Qltb. rewrite negb_false_iff. apply Qle_bool_iff.
Qed.

Lemma ltb_irrefl (x : num) : (x <? x)%num = false.
Proof.
  destruct x; simpl; trivial. apply Qltb_ge. apply Qle_refl.
Qed.

Lemma ltb_asym (x y : num) : (x <? y)%num = true -> (y <? x)%num = false.
Proof.
  destruct x, y; simpl; trivial; try discriminate.
  intro H. apply Qltb_lt in H. apply Qltb_ge. apply Qlt_le_weak. exact H.
Qed.

Lemma eqb_not_ltb (x y : num) :
  (x ==? y)%num = true -> (x <? y)%num = false /\ (y <? x)%num = false.
Proof.
  destruct x, y; simpl; try discriminate; auto.
  intro H. apply Qeq_bool_iff in H.
  split; apply Qltb_ge; rewrite H; apply Qle_refl.
Qed.

(** On finite values [Num.max] is the maximum of the rationals. *)
Lemma max_Fin (a b : Q) :
  exists m, Num.max (Fin a) (Fin b) = Fin m /\ m == Qmax a b.
Proof.
  unfold Num.max. simpl. destruct (Qltb a b) eqn:E.
  - exists b. split; trivial. apply Qltb_lt in E.
    symmetry. apply Q.max_r. apply Qlt_le_weak. exact E.
  - exists a. split; trivial. apply Qltb_ge in E.
    symmetry. apply Q.max_l. exact E.
Qed.


End NumFacts.

(** ** Series and rolling windows *)

Section SeriesFacts.

Import TechnicalAnalysis.

Lemma iloc_last_app (s : list num) (x : num) :
  iloc_last (s ++ [x])%list = Ok x.
Proof.
  induction s as [|y s IH]; simpl; trivial.
  destruct (s ++ [x])%list eqn:E; trivial.
  destruct s; discriminate.
Qed.

Lemma iloc_last_ok (s : list num) :
  s <> [] -> exists x r, s = (r ++ [x])%list /\ iloc_last s = Ok x.
Proof.
  intro H. destruct (exists_last H) as [r [x E]].
  exists x, r. split; trivial. rewrite E. apply iloc_last_app.
Qed.

Lemma rolling_length agg w (s : list num) :
  List.length (rolling agg w s) = List.length s.
Proof. unfold rolling. now rewrite length_map, length_seq. Qed.

(** The last row of a rolling aggregate looks at the whole series. *)
Lemma rolling_last agg w (s : list num) :
  s <> [] -> iloc_last (rolling agg w s) = Ok (window_value agg w s).
Proof.
  intro H. unfold rolling.
  destruct (List.length s) as [|n] eqn:L.
  - destruct s; [contradiction | discriminate].
  - rewrite seq_S, map_app. cbn [map Nat.add]. rewrite iloc_last_app.
    rewrite <- L, firstn_all. reflexivity.
Qed.

Lemma series_sub_last (a b : list num) (x y : num) :
  List.length a = List.length b ->
  iloc_last a = Ok x -> iloc_last b = Ok y ->
  iloc_last (series_sub a b) = Ok (x - y)%num.
Proof.
  revert b. induction a as [|u a IH]; intros [|v b] L Ha Hb;
    try discriminate.
  destruct a as [|u' a], b as [|v' b]; try discriminate.
  - simpl in *. congruence.
  - assert (E : series_sub (u :: u' :: a) (v :: v' :: b)
                = ((u - v)%num :: series_sub (u' :: a) (v' :: b))).
    { reflexivity. }
    rewrite E.
    assert (IH' : iloc_last (series_sub (u' :: a) (v' :: b)) = Ok (x - y)%num).
    { apply IH; [simpl in L |- *; lia | exact Ha | exact Hb]. }
    change (series_sub (u' :: a) (v' :: b))
      with ((u' - v')%num :: series_sub a b) in *.
    exact IH'.
Qed.

(** [current_atr] in closed form: the two window values of the whole frame
    and its last close. *)
Lemma current_atr_eq (ta : TA.t) (c : num) :
  iloc_last (map close (df ta)) = Ok c ->
  current_atr ta =
    Ok ((window_value maximum 14 (map high (df ta))
         - window_value minimum 14 (map low (df ta))) / c)%num.
Proof.
  intro Hc. unfold current_atr.
  assert (N : df ta <> []).
  { intro E. rewrite E in Hc. discriminate. }
  rewrite (series_sub_last _ _
             (window_value maximum 14 (map high (df ta)))
             (window_value minimum 14 (map low (df ta)))).
  - simpl. rewrite Hc. reflexivity.
  - now rewrite !rolling_length, !length_map.
  - apply rolling_last. destruct (df ta); [contradiction | discriminate].
  - apply rolling_last. destruct (df ta); [contradiction | discriminate].
Qed.

Lemma last_close_ok (ta : TA.t) :
  df ta <> [] -> exists c, iloc_last (map close (df ta)) = Ok c.
Proof.
  intro N. destruct (iloc_last_ok (map close (df ta))) as [x [r [_ H]]].
  - destruct (df ta); [contradiction | discriminate].
  - now exists x.
Qed.

(** The record of targets, given the volatility proxy [v] of the frame. *)
Lemma targets_of_atr ta cp trend rr (v : num) :
  current_atr ta = Ok v ->
  calculate_trade_targets ta cp trend rr =
    Ok (let sd := (cp * v * Fin 1.5)%num in
        if String.eqb trend "long" then
          {| stop_loss := (cp - sd)%num;
             take_profit := (cp + sd * rr)%num;
             risk_distance := Num.abs (cp - (cp - sd));
             reward_distance := Num.abs (cp + sd * rr - cp) |}
        else
          {| stop_loss := (cp + sd)%num;
             take_profit := (cp - sd * rr)%num;
             risk_distance := Num.abs (cp - (cp + sd));
             reward_distance := Num.abs (cp - sd * rr - cp) |}).
Proof.
  intro H. unfold calculate_trade_targets. rewrite H. cbn [bind].
  destruct (String.eqb trend "long"); reflexivity.
Qed.

(** The target calculator returns on every non-empty frame, whatever the
    numbers in it, and raises [IndexError] on an empty one. *)
Lemma calculate_trade_targets_total ta cp trend rr :
  df ta <> [] -> exists t, calculate_trade_targets ta cp trend rr = Ok t.
Proof.
  intro N. destruct (last_close_ok ta N) as [c Hc].
  unfold calculate_trade_targets. rewrite (current_atr_eq ta c Hc). simpl.
  destruct (String.eqb trend "long"); eexists; reflexivity.
Qed.

Lemma calculate_trade_targets_empty ta cp trend rr :
  df ta = [] -> calculate_trade_targets ta cp trend rr = Raise IndexError.
Proof.
  intro E. unfold calculate_trade_targets, current_atr. rewrite E. reflexivity.
Qed.

End SeriesFacts.

(** ** The scores *)

Section Scores.

Import SignalGenerator.

Lemma technical_scores_value (tech : dict) :
  exists b r,
    technical_scores tech = (Fin b, Fin r) /\
    b == contribution (flag tech "uptrend") 0.25
         + contribution (flag tech "golden_cross") 0.15
         + contribution (flag tech "rsi_oversold") 0.1 /\
    r == contribution (flag tech "downtrend") 0.25
         + contribution (flag tech "death_cross") 0.15
         + contribution (flag tech "rsi_overbought") 0.1.
Proof.
  unfold technical_scores.
  destruct (flag tech "uptrend"), (flag tech "golden_cross"),
    (flag tech "rsi_oversold"), (flag tech "downtrend"),
    (flag tech "death_cross"), (flag tech "rsi_overbought");
    do 2 eexists; (split; [reflexivity | split; reflexivity]).
Qed.

Lemma bullish_not_bearish (ai : dict) :
  is_bullish ai = true -> is_bearish ai = false.
Proof.
  unfold is_bullish, is_bearish.
  destruct (get_none ai "sentiment"); simpl; trivial.
  intro H. apply String.eqb_eq in H. subst. reflexivity.
Qed.

Lemma confidence_ok_scoring (ai : dict) :
  confidence_ok ai -> exists c, scoring_confidence ai = Ok c.
Proof.
  unfold confidence_ok, scoring_confidence, get.
  destruct (lookup ai "confidence_score"); intro H.
  - exact H.
  - eexists. reflexivity.
Qed.

Lemma confidence_ok_timing (ai : dict) :
  confidence_ok ai -> exists c, timing_confidence ai = Ok c.
Proof.
  unfold confidence_ok, timing_confidence, get.
  destruct (lookup ai "confidence_score"); intro H.
  - exact H.
  - eexists. reflexivity.
Qed.

(** The scoring step returns whenever the confidence is a number. *)
Lemma final_scores_total (tech ai : dict) :
  confidence_ok ai -> exists bull bear, final_scores tech ai = Ok (bull, bear).
Proof.
  intro H. destruct (confidence_ok_scoring ai H) as [c Hc].
  unfold final_scores, ai_scores.
  destruct (technical_scores tech) as [b r].
  unfold scoring_confidence in Hc. rewrite Hc. simpl.
  destruct (eq_str _ "bullish"); [|destruct (eq_str _ "bearish")];
    do 2 eexists; reflexivity.
Qed.

End Scores.

Section ScoreClaims.

Import PrimFloat.

(** On the floats as on the rationals, a verdict is bullish or bearish, not
    both. *)
Lemma binary64_bullish_not_bearish (ai : B64.dict) :
  B64.is_bullish ai = true -> B64.is_bearish ai = false.
Proof.
  unfold B64.is_bullish, B64.is_bearish, B64.eq_str.
  destruct (B64.get_none ai "sentiment") as [| | |t]; try discriminate.
  intro H. apply String.eqb_eq in H. subst t. reflexivity.
Qed.

(** C1.  On the floats of the program, the two accumulators start at 0
    and receive exactly the listed contributions, each at most once and
    in the order of the code: 0.25 for the trend, 0.15 for the cross, 0.1
    for the RSI zone, and half the verdict's confidence on the side of a
    bullish or bearish sentiment; any other sentiment adds nothing, and
    its confidence is not read.  In the scenario of an uptrend with a
    golden cross and a bullish verdict of confidence 0.9, under the
    threshold 0.7, the signal is a buy, and its confidence is the float
    sum of 0.25, 0.15 and 0.45: not 0.85 but the float next above it,
    0.8500000000000001, at a distance of 2^-53. *)
Theorem C1_scores_in_binary64 :
  (forall (tech ai : B64.dict) (c : float),
      B64.scoring_confidence ai = Ok c ->
      B64.final_scores tech ai =
        Ok (B64.total
              (B64.fired [ (B64.flag tech "uptrend", 0.25%float);
                           (B64.flag tech "golden_cross", 0.15%float);
                           (B64.flag tech "rsi_oversold", 0.1%float);
                           (B64.is_bullish ai, (0.5 * c)%float) ]),
            B64.total
              (B64.fired [ (B64.flag tech "downtrend", 0.25%float);
                           (B64.flag tech "death_cross", 0.15%float);
                           (B64.flag tech "rsi_overbought", 0.1%float);
                           (B64.is_bearish ai, (0.5 * c)%float) ])))
  /\
  (forall (tech ai : B64.dict),
      B64.is_bullish ai = false -> B64.is_bearish ai = false ->
      B64.final_scores tech ai =
        Ok (B64.total
              (B64.fired [ (B64.flag tech "uptrend", 0.25%float);
                           (B64.flag tech "golden_cross", 0.15%float);
                           (B64.flag tech "rsi_oversold", 0.1%float) ]),
            B64.total
              (B64.fired [ (B64.flag tech "downtrend", 0.25%float);
                           (B64.flag tech "death_cross", 0.15%float);
                           (B64.flag tech "rsi_overbought", 0.1%float) ])))
  /\
  (exists confidence : float,
      B64.signal_and_confidence B64.init
        B64.scenario_technical B64.scenario_sentiment
      = Ok ("buy", confidence) /\
      confidence = (0 + 0.25 + 0.15 + 0.5 * 0.9)%float /\
      confidence = next_up 0.85%float /\
      (confidence =? 0.85)%float = false /\
      (confidence - 0.85 =? 0x1p-53)%float = true).
Proof.
  split; [|split].
  - intros tech ai c Hc.
    unfold B64.final_scores, B64.ai_scores, B64.technical_scores.
    unfold B64.scoring_confidence in Hc. rewrite Hc.
    fold (B64.is_bullish ai). fold (B64.is_bearish ai).
    destruct (B64.is_bullish ai) eqn:Bu.
    + rewrite (binary64_bullish_not_bearish ai Bu).
      destruct (B64.flag tech "uptrend"), (B64.flag tech "downtrend"),
        (B64.flag tech "golden_cross"), (B64.flag tech "death_cross"),
        (B64.flag tech "rsi_oversold"), (B64.flag tech "rsi_overbought");
        reflexivity.
    + destruct (B64.is_bearish ai);
        destruct (B64.flag tech "uptrend"), (B64.flag tech "downtrend"),
          (B64.flag tech "golden_cross"), (B64.flag tech "death_cross"),
          (B64.flag tech "rsi_oversold"), (B64.flag tech "rsi_overbought");
        reflexivity.
  - intros tech ai Bu Be.
    unfold B64.final_scores, B64.ai_scores, B64.technical_scores.
    fold (B64.is_bullish ai). fold (B64.is_bearish ai). rewrite Bu, Be.
    destruct (B64.flag tech "uptrend"), (B64.flag tech "downtrend"),
      (B64.flag tech "golden_cross"), (B64.flag tech "death_cross"),
      (B64.flag tech "rsi_oversold"), (B64.flag tech "rsi_overbought");
      reflexivity.
  - eexists. split; [vm_compute; reflexivity|].
    repeat split; vm_compute; reflexivity.
Qed.

(** A run of C1: oversold uptrend, bearish verdict of confidence 0.6. *)
Lemma C1_scores_in_binary64_witness :
  B64.final_scores
    [("uptrend", B64.VBool true); ("rsi_oversold", B64.VBool true)]
    [("sentiment", B64.VStr "bearish");
     ("confidence_score", B64.VFloat 0.6%float)]
  = Ok ((0 + 0.25 + 0.1)%float, (0 + 0.5 * 0.6)%float).
Proof.
  rewrite (proj1 C1_scores_in_binary64
             [("uptrend", B64.VBool true); ("rsi_oversold", B64.VBool true)]
             [("sentiment", B64.VStr "bearish");
              ("confidence_score", B64.VFloat 0.6%float)]
             0.6%float eq_refl).
  reflexivity.
Defined.

(** The claim of C1 fails in its scenario: the confidence of the buy is
    the float 0.8500000000000001, which is not equal to 0.85. *)
Lemma C1_confidence_counterexample :
  B64.signal_and_confidence B64.init
    B64.scenario_technical B64.scenario_sentiment
  = Ok ("buy", 0x1.b333333333334p-1%float)
  /\ (0x1.b333333333334p-1 =? 0.85)%float = false
  /\ (0.85 <? 0x1.b333333333334p-1)%float = true.
Proof. repeat split; vm_compute; reflexivity. Qed.

End ScoreClaims.

(** ** The decision and the shape of the record *)

Section Decision.

Import SignalGenerator.

Lemma entry_guard_total (tech ai : dict) :
  confidence_ok ai -> exists g, entry_guard tech ai = Ok g.
Proof.
  intro H. destruct (confidence_ok_timing ai H) as [c Hc].
  unfold entry_guard. unfold timing_confidence in Hc. rewrite Hc.
  destruct (flag tech "high_volume"); eexists; reflexivity.
Qed.

Lemma entry_timing_total (tech ai : dict) :
  confidence_ok ai -> exists s, _get_entry_timing tech ai = Ok s.
Proof.
  intro H. destruct (entry_guard_total tech ai H) as [g Hg].
  unfold _get_entry_timing. rewrite Hg. cbn [bind].
  destruct g; eexists; reflexivity.
Qed.

(** The three outcomes of [signal_type], by the comparisons that decide
    them. *)
Lemma signal_type_cases (self : t) (bull bear : num) :
  (signal_type self bull bear = Some "buy" /\
   (bear <? bull)%num = true /\
   (min_confidence_threshold self <? bull)%num = true)
  \/
  (signal_type self bull bear = Some "sell" /\
   (bull <? bear)%num = true /\
   (min_confidence_threshold self <? bear)%num = true /\
   (bear <? bull)%num = false)
  \/
  (signal_type self bull bear = None /\
   ((bear <? bull)%num = false \/
    (min_confidence_threshold self <? bull)%num = false) /\
   ((bull <? bear)%num = false \/
    (min_confidence_threshold self <? bear)%num = false)).
Proof.
  unfold signal_type.
  destruct (bear <? bull)%num eqn:A;
    destruct (min_confidence_threshold self <? bull)%num eqn:B;
    destruct (bull <? bear)%num eqn:C;
    destruct (min_confidence_threshold self <? bear)%num eqn:D;
    cbn [andb];
    try (apply ltb_asym in A; congruence);
    auto 10.
Qed.

(** What the record holds under the keys [signal], [confidence] and
    [targets], on every input on which the fuser returns. *)
Lemma final_signal_fields (self : t) (now : string) (cp : num)
    (tech ai : dict) (ta : TA.t) (bull bear : num) :
  confidence_ok ai -> TA.df ta <> [] ->
  final_scores tech ai = Ok (bull, bear) ->
  exists d,
    _generate_final_signal self now cp tech ai ta = Ok d /\
    match signal_type self bull bear with
    | None =>
        lookup d "signal" = Some (PStr "neutral") /\
        lookup d "confidence" = Some (PNum (Num.max bull bear)) /\
        lookup d "targets" = None
    | Some s =>
        exists tg,
          TA.calculate_trade_targets ta cp
            (if String.eqb s "buy" then "long" else "short")
            (risk_reward_ratio self) = Ok tg /\
          lookup d "signal" = Some (PStr s) /\
          lookup d "confidence"
            = Some (PNum (if String.eqb s "buy" then bull else bear)) /\
          lookup d "targets"
            = Some (PDict [("stop_loss", PNum (TA.stop_loss tg));
                           ("take_profit", PNum (TA.take_profit tg))])
    end.
Proof.
  intros Hc N Hs. unfold _generate_final_signal. rewrite Hs. cbn [bind].
  destruct (signal_type self bull bear) as [s|].
  - destruct (calculate_trade_targets_total ta cp
                (if String.eqb s "buy" then "long" else "short")
                (risk_reward_ratio self) N) as [tg Ht].
    destruct (entry_timing_total tech ai Hc) as [tm Hm].
    rewrite Ht, Hm. cbn [bind]. eexists. split; [reflexivity|].
    exists tg. repeat split; reflexivity.
  - eexists. split; [reflexivity|]. repeat split; reflexivity.
Qed.

End Decision.

Section DecisionClaims.

Import SignalGenerator.

Local Ltac absurd_bool :=
  match goal with
  | H : ?x = true, H' : ?x = false |- _ => rewrite H in H'; discriminate H'
  | H : Some (PStr _) = Some (PStr _) |- _ => discriminate H
  end.

(** C2.  The fuser answers buy exactly when the bull score exceeds both the
    bear score and the threshold, sell exactly when the bear score exceeds
    both the bull score and the threshold, and neutral in every other case.
    Both comparisons are strict: equal scores, or a leading score equal to
    the threshold, give neutral.  A neutral record carries the confidence
    [max(bull_score, bear_score)], the greater of the two scores. *)
Theorem C2_decision_rule (self : t) (now : string) (cp : num)
    (tech ai : dict) (ta : TA.t) :
  confidence_ok ai -> TA.df ta <> [] ->
  exists bull bear d,
    final_scores tech ai = Ok (bull, bear) /\
    _generate_final_signal self now cp tech ai ta = Ok d /\
    (forall a b, bull = Fin a -> bear = Fin b ->
       exists m, Num.max bull bear = Fin m /\ m == Qmax a b) /\
    (lookup d "signal" = Some (PStr "buy") <->
       (bear <? bull)%num = true /\
       (min_confidence_threshold self <? bull)%num = true) /\
    (lookup d "signal" = Some (PStr "sell") <->
       (bull <? bear)%num = true /\
       (min_confidence_threshold self <? bear)%num = true) /\
    (lookup d "signal" = Some (PStr "neutral") <->
       ~ ((bear <? bull)%num = true /\
          (min_confidence_threshold self <? bull)%num = true) /\
       ~ ((bull <? bear)%num = true /\
          (min_confidence_threshold self <? bear)%num = true)) /\
    ((bull ==? bear)%num = true ->
       lookup d "signal" = Some (PStr "neutral")) /\
    ((Num.max bull bear ==? min_confidence_threshold self)%num = true ->
       lookup d "signal" = Some (PStr "neutral")) /\
    (lookup d "signal" = Some (PStr "neutral") ->
       lookup d "confidence" = Some (PNum (Num.max bull bear))).
Proof.
  intros Hc N.
  destruct (final_scores_total tech ai Hc) as [bull [bear Hs]].
  destruct (final_signal_fields self now cp tech ai ta bull bear Hc N Hs)
    as [d [Hd F]].
  exists bull, bear, d. split; [exact Hs|]. split; [exact Hd|].
  split; [intros a b -> ->; apply max_Fin|].
  set (thr := min_confidence_threshold self) in *.
  destruct (signal_type_cases self bull bear)
    as [[E [A B]] | [[E [A [B C]]] | [E [A B]]]]; fold thr in A, B;
    rewrite E in F.
  - (* buy *)
    destruct F as [tg [_ [S [_ _]]]]. rewrite S.
    pose proof (ltb_asym _ _ A) as A'.
    repeat split; try (intros; absurd_bool); auto.
    + intros [X _]. absurd_bool.
    + intros [X _]. elim X. auto.
    + intro X. apply eqb_not_ltb in X. destruct X. absurd_bool.
    + unfold Num.max. rewrite A'. intro X.
      apply eqb_not_ltb in X. destruct X. absurd_bool.
  - (* sell *)
    destruct F as [tg [_ [S [_ _]]]]. rewrite S.
    repeat split; try (intros; absurd_bool); auto.
    + intros [X _]. absurd_bool.
    + intros [_ X]. elim X. auto.
    + intro X. apply eqb_not_ltb in X. destruct X. absurd_bool.
    + unfold Num.max. rewrite A. intro X.
      apply eqb_not_ltb in X. destruct X. absurd_bool.
  - (* neutral *)
    destruct F as [S [Cf _]]. rewrite S.
    repeat split; try (intros; absurd_bool); auto.
    + intros [X Y]. destruct A; absurd_bool.
    + intros [X Y]. destruct B; absurd_bool.
    + intros [X Y]. destruct A; absurd_bool.
    + intros [X Y]. destruct B; absurd_bool.
Qed.

(** The threshold is met exactly: uptrend, golden cross and a bullish
    verdict of confidence 0.6 score 0.7, which is not above 0.7. *)
Lemma C2_decision_rule_witness :
  exists d,
    _generate_final_signal (init "1h") "2025-01-01T00:00:00" (Fin 100)
      scenario_technical
      [("sentiment", PStr "bullish"); ("confidence_score", PNum (Fin 0.6))]
      frame_regular = Ok d /\
    lookup d "signal" = Some (PStr "neutral") /\
    lookup d "confidence" = Some (PNum (Fin (7 # 10))).
Proof.
  destruct (C2_decision_rule (init "1h") "2025-01-01T00:00:00" (Fin 100)
              scenario_technical
              [("sentiment", PStr "bullish");
               ("confidence_score", PNum (Fin 0.6))]
              frame_regular)
    as [bull [bear [d [Hs [Hd [_ [_ [_ [_ [_ [Hthr Hconf]]]]]]]]]]].
  - simpl. exists (Fin 0.6). reflexivity.
  - simpl. discriminate.
  - vm_compute in Hs. injection Hs as Hb Hr. subst bull bear.
    exists d. split; [exact Hd|].
    split; [apply Hthr; reflexivity | apply Hconf, Hthr; reflexivity].
Defined.

End DecisionClaims.

Section RecordClaims.

Import SignalGenerator.

(** Whenever the fuser returns, it went through the scoring, and the record
    has the fields of the branch that [signal_type] selects. *)
Lemma final_signal_inv (self : t) (now : string) (cp : num)
    (tech ai : dict) (ta : TA.t) (d : dict) :
  _generate_final_signal self now cp tech ai ta = Ok d ->
  exists bull bear,
    final_scores tech ai = Ok (bull, bear) /\
    match signal_type self bull bear with
    | None =>
        lookup d "signal" = Some (PStr "neutral") /\
        lookup d "targets" = None
    | Some s =>
        exists tg,
          TA.calculate_trade_targets ta cp
            (if String.eqb s "buy" then "long" else "short")
            (risk_reward_ratio self) = Ok tg /\
          lookup d "signal" = Some (PStr s) /\
          lookup d "targets"
            = Some (PDict [("stop_loss", PNum (TA.stop_loss tg));
                           ("take_profit", PNum (TA.take_profit tg))])
    end.
Proof.
  unfold _generate_final_signal.
  destruct (final_scores tech ai) as [[bull bear]|e]; cbn [bind];
    [|discriminate].
  intro H. exists bull, bear. split; [reflexivity|].
  destruct (signal_type self bull bear) as [s|].
  - destruct (TA.calculate_trade_targets ta cp _ _) as [tg|e]; cbn [bind] in H;
      [|discriminate].
    destruct (_get_entry_timing tech ai) as [tm|e]; cbn [bind] in H;
      [|discriminate].
    injection H as <-. exists tg. repeat split; reflexivity.
  - injection H as <-. split; reflexivity.
Qed.

Lemma final_signal_total (self : t) (now : string) (cp : num)
    (tech ai : dict) (ta : TA.t) :
  confidence_ok ai -> TA.df ta <> [] ->
  exists d, _generate_final_signal self now cp tech ai ta = Ok d.
Proof.
  intros Hc N. destruct (final_scores_total tech ai Hc) as [bull [bear Hs]].
  destruct (final_signal_fields self now cp tech ai ta bull bear Hc N Hs)
    as [d [Hd _]].
  now exists d.
Qed.

(** C3.  Every record the fuser returns has a signal among buy, sell and
    neutral; a buy or a sell record has a [targets] entry that holds a stop
    loss and a take profit, and a neutral record has no [targets] key.  The
    fuser does return, on every non-empty frame and every verdict whose
    confidence is a number. *)
Theorem C3_targets_iff_directional (self : t) (now : string) (cp : num)
    (tech ai : dict) (ta : TA.t) :
  (forall d,
      _generate_final_signal self now cp tech ai ta = Ok d ->
      (lookup d "signal" = Some (PStr "buy") \/
       lookup d "signal" = Some (PStr "sell") \/
       lookup d "signal" = Some (PStr "neutral")) /\
      (lookup d "signal" = Some (PStr "buy") \/
       lookup d "signal" = Some (PStr "sell") ->
       exists sl tp,
         lookup d "targets"
           = Some (PDict [("stop_loss", PNum sl); ("take_profit", PNum tp)])) /\
      (lookup d "signal" = Some (PStr "neutral") ->
       lookup d "targets" = None))
  /\
  (confidence_ok ai -> TA.df ta <> [] ->
   exists d, _generate_final_signal self now cp tech ai ta = Ok d).
Proof.
  split; [|apply final_signal_total].
  intros d H.
  destruct (final_signal_inv self now cp tech ai ta d H)
    as [bull [bear [_ F]]].
  destruct (signal_type_cases self bull bear)
    as [[E _] | [[E _] | [E _]]]; rewrite E in F.
  - destruct F as [tg [_ [S T]]]. rewrite S, T.
    split; [auto|]. split; [eauto | discriminate].
  - destruct F as [tg [_ [S T]]]. rewrite S, T.
    split; [auto|]. split; [eauto | discriminate].
  - destruct F as [S T]. rewrite S, T.
    split; [auto|]. split; [|reflexivity].
    intros [X|X]; discriminate X.
Qed.

(** C3 on the scenario record (a buy) and on the record of a verdict with
    no flag and no sentiment (neutral). *)
Lemma C3_targets_iff_directional_witness :
  (exists d sl tp,
      _generate_final_signal (init "1h") "2025-01-01T00:00:00" (Fin 100)
        scenario_technical scenario_sentiment
        frame_regular = Ok d /\
      lookup d "targets"
        = Some (PDict [("stop_loss", PNum sl); ("take_profit", PNum tp)]))
  /\
  (exists d,
      _generate_final_signal (init "1h") "2025-01-01T00:00:00" (Fin 100)
        [] [] frame_regular = Ok d /\
      lookup d "targets" = None).
Proof.
  split.
  - destruct (proj1 (C3_targets_iff_directional (init "1h")
                       "2025-01-01T00:00:00" (Fin 100)
                       scenario_technical scenario_sentiment
                       frame_regular)
                _ eq_refl) as [_ [Hdir _]].
    destruct (Hdir (or_introl eq_refl)) as [sl [tp Ht]].
    eexists. exists sl, tp. split; [reflexivity | exact Ht].
  - destruct (proj1 (C3_targets_iff_directional (init "1h")
                       "2025-01-01T00:00:00" (Fin 100) [] []
                       frame_regular)
                _ eq_refl) as [_ [_ Hn]].
    eexists. split; [reflexivity | exact (Hn eq_refl)].
Defined.

End RecordClaims.

(** ** Special values in the target calculator *)

Section NotFinite.

Lemma inf_of_not_finite (c : comparison) : is_finite (inf_of c) = false.
Proof. destruct c; reflexivity. Qed.

Lemma div_zero_not_finite (a : num) (c : Q) :
  c == 0 -> is_finite (a / Fin c)%num = false.
Proof.
  intro H. apply Qeq_bool_iff in H.
  destruct a; simpl; rewrite ?H; auto using inf_of_not_finite.
Qed.

Lemma mul_not_finite_r (x y : num) :
  is_finite y = false -> is_finite (x * y)%num = false.
Proof.
  destruct x, y; simpl; try discriminate; auto using inf_of_not_finite.
Qed.

Lemma mul_not_finite_l (x y : num) :
  is_finite x = false -> is_finite (x * y)%num = false.
Proof.
  destruct x, y; simpl; try discriminate; auto using inf_of_not_finite.
Qed.

Lemma add_not_finite_r (x y : num) :
  is_finite y = false -> is_finite (x + y)%num = false.
Proof. destruct x, y; simpl; try discriminate; auto. Qed.

Lemma sub_not_finite_r (x y : num) :
  is_finite y = false -> is_finite (x - y)%num = false.
Proof. destruct x, y; simpl; try discriminate; auto. Qed.

Lemma sub_not_finite_l (x y : num) :
  is_finite x = false -> is_finite (x - y)%num = false.
Proof. destruct x, y; simpl; try discriminate; auto. Qed.

Lemma abs_not_finite (x : num) :
  is_finite x = false -> is_finite (Num.abs x) = false.
Proof. destruct x; simpl; try discriminate; auto. Qed.

End NotFinite.

Section ZeroClose.

Import TechnicalAnalysis.

(** C4, as the code has it.  A latest close of zero raises nothing in
    [calculate_trade_targets]: the call returns a record, and none of its
    four fields is a finite number (each is an infinity or NaN). *)
Theorem C4_zero_close_returns_non_finite (ta : TA.t) (cp : num)
    (trend : string) (rr : num) (c : Q) :
  iloc_last (map close (df ta)) = Ok (Fin c) -> c == 0 ->
  exists t,
    calculate_trade_targets ta cp trend rr = Ok t /\
    is_finite (stop_loss t) = false /\
    is_finite (take_profit t) = false /\
    is_finite (risk_distance t) = false /\
    is_finite (reward_distance t) = false.
Proof.
  intros Hc Z.
  pose proof (current_atr_eq ta (Fin c) Hc) as Ha.
  set (a := (_ - _)%num) in Ha.
  pose proof (div_zero_not_finite a c Z) as Hv.
  rewrite (targets_of_atr ta cp trend rr _ Ha).
  set (v := (a / Fin c)%num) in *.
  assert (Hd : is_finite (cp * v * Fin 1.5)%num = false).
  { apply mul_not_finite_l, mul_not_finite_r, Hv. }
  set (sd := (cp * v * Fin 1.5)%num) in *.
  eexists. split; [reflexivity|].
  destruct (String.eqb trend "long");
    cbn [stop_loss take_profit risk_distance reward_distance];
    repeat split;
    auto using abs_not_finite, sub_not_finite_l, sub_not_finite_r,
      add_not_finite_r, mul_not_finite_l.
Qed.

(** C4 on the frame whose last close is zero. *)
Lemma C4_zero_close_returns_non_finite_witness :
  exists t,
    calculate_trade_targets frame_zero_close (Fin 100) "short" (Fin 2) = Ok t /\
    is_finite (stop_loss t) = false /\
    is_finite (take_profit t) = false /\
    is_finite (risk_distance t) = false /\
    is_finite (reward_distance t) = false.
Proof.
  apply (C4_zero_close_returns_non_finite frame_zero_close (Fin 100)
           "short" (Fin 2) 0); reflexivity.
Defined.

(** The claim of C4 fails: with a last close of zero over a range of 9 to
    12, a long position at 100 gets a stop loss of minus infinity and a take
    profit of plus infinity, and the fuser puts them in a buy record. *)
Lemma C4_zero_close_counterexample :
  calculate_trade_targets frame_zero_close (Fin 100) "long" (Fin 2)
  = Ok {| stop_loss := NInf; take_profit := PInf;
          risk_distance := PInf; reward_distance := PInf |}
  /\
  exists d,
    SG._generate_final_signal (SG.init "1h") "2025-01-01T00:00:00" (Fin 100)
      scenario_technical scenario_sentiment frame_zero_close = Ok d /\
    lookup d "signal" = Some (PStr "buy") /\
    lookup d "targets"
      = Some (PDict [("stop_loss", PNum NInf); ("take_profit", PNum PInf)]).
Proof.
  split; [reflexivity|].
  eexists. split; [reflexivity|]. split; reflexivity.
Qed.

End ZeroClose.

(** ** Complete windows of finite bars *)

Section Windows.

Import TechnicalAnalysis.

Lemma fold_max_finite (r : list num) (a : Q) :
  Forall (fun x => is_finite x = true) r ->
  exists m,
    fold_left (fun m y => if (m <? y)%num then y else m) r (Fin a) = Fin m /\
    a <= m /\ forall q, In (Fin q) r -> q <= m.
Proof.
  revert a. induction r as [|x r IH]; intros a F.
  - exists a. split; [reflexivity|]. split; [apply Qle_refl|]. intros q [].
  - inversion F as [|? ? Fx Fr]; subst.
    destruct x as [q| | |]; try discriminate Fx.
    cbn [fold_left Num.ltb]. destruct (Qltb a q) eqn:E.
    + apply Qltb_lt in E. destruct (IH q Fr) as [m [Hm [L U]]].
      exists m. split; [exact Hm|]. split; [lra|].
      intros q' [X|X]; [injection X as <-; exact L | apply U, X].
    + apply Qltb_ge in E. destruct (IH a Fr) as [m [Hm [L U]]].
      exists m. split; [exact Hm|]. split; [exact L|].
      intros q' [X|X]; [injection X as <-; lra | apply U, X].
Qed.

Lemma fold_min_finite (r : list num) (a : Q) :
  Forall (fun x => is_finite x = true) r ->
  exists m,
    fold_left (fun m y => if (y <? m)%num then y else m) r (Fin a) = Fin m /\
    m <= a /\ forall q, In (Fin q) r -> m <= q.
Proof.
  revert a. induction r as [|x r IH]; intros a F.
  - exists a. split; [reflexivity|]. split; [apply Qle_refl|]. intros q [].
  - inversion F as [|? ? Fx Fr]; subst.
    destruct x as [q| | |]; try discriminate Fx.
    cbn [fold_left Num.ltb]. destruct (Qltb q a) eqn:E.
    + apply Qltb_lt in E. destruct (IH q Fr) as [m [Hm [L U]]].
      exists m. split; [exact Hm|]. split; [lra|].
      intros q' [X|X]; [injection X as <-; exact L | apply U, X].
    + apply Qltb_ge in E. destruct (IH a Fr) as [m [Hm [L U]]].
      exists m. split; [exact Hm|]. split; [exact L|].
      intros q' [X|X]; [injection X as <-; lra | apply U, X].
Qed.

Lemma maximum_finite (l : list num) :
  l <> [] -> Forall (fun x => is_finite x = true) l ->
  exists m, maximum l = Fin m /\ forall q, In (Fin q) l -> q <= m.
Proof.
  intros N F. destruct l as [|x r]; [contradiction|].
  inversion F as [|? ? Fx Fr]; subst.
  destruct x as [a| | |]; try discriminate Fx.
  destruct (fold_max_finite r a Fr) as [m [Hm [L U]]].
  exists m. split; [exact Hm|].
  intros q [X|X]; [injection X as <-; exact L | apply U, X].
Qed.

Lemma minimum_finite (l : list num) :
  l <> [] -> Forall (fun x => is_finite x = true) l ->
  exists m, minimum l = Fin m /\ forall q, In (Fin q) l -> m <= q.
Proof.
  intros N F. destruct l as [|x r]; [contradiction|].
  inversion F as [|? ? Fx Fr]; subst.
  destruct x as [a| | |]; try discriminate Fx.
  destruct (fold_min_finite r a Fr) as [m [Hm [L U]]].
  exists m. split; [exact Hm|].
  intros q [X|X]; [injection X as <-; exact L | apply U, X].
Qed.

Lemma no_nan_in_finite (l : list num) :
  Forall (fun x => is_finite x = true) l ->
  existsb (fun x => negb (is_finite x)) l = false.
Proof.
  induction 1 as [|x l Fx _ IH]; [reflexivity|].
  simpl. now rewrite IH, Fx.
Qed.

(** With fourteen rows or more, all finite in the last fourteen, the
    rolling value of the last row is the aggregate of those fourteen. *)
Lemma window_value_full agg (s : list num) :
  (14 <= List.length s)%nat ->
  Forall (fun x => is_finite x = true) (last14 s) ->
  window_value agg 14 s = agg (last14 s).
Proof.
  intros L F. unfold window_value. fold (last14 s).
  destruct (Nat.ltb_spec (List.length s) 14) as [X|_]; [lia|].
  now rewrite (no_nan_in_finite _ F).
Qed.

Lemma last14_map {A B : Type} (f : A -> B) (s : list A) :
  last14 (map f s) = map f (last14 s).
Proof. unfold last14. now rewrite length_map, skipn_map. Qed.

Lemma last14_nonempty {A : Type} (s : list A) :
  (14 <= List.length s)%nat -> last14 s <> [].
Proof.
  intros L E. apply (f_equal (@List.length A)) in E.
  unfold last14 in E. rewrite length_skipn in E. simpl in E. lia.
Qed.

(** The volatility proxy of a frame with a complete window of finite bars
    and a non-zero last close: a finite number, the range of the window
    over the close, where the top of the range is above every high of the
    window and its bottom below every low. *)
Lemma current_atr_window (ta : TA.t) (c : Q) :
  (14 <= List.length (df ta))%nat ->
  Forall finite_range (last14 (df ta)) ->
  iloc_last (map close (df ta)) = Ok (Fin c) ->
  ~ c == 0 ->
  exists hi lo v,
    current_atr ta = Ok (Fin v) /\
    v == (hi - lo) / c /\
    (forall b h, In b (last14 (df ta)) -> high b = Fin h -> h <= hi) /\
    (forall b l, In b (last14 (df ta)) -> low b = Fin l -> lo <= l).
Proof.
  intros L F Hc Z.
  assert (Fh : Forall (fun x => is_finite x = true) (last14 (map high (df ta)))).
  { rewrite last14_map. apply Forall_map.
    eapply Forall_impl; [|exact F]. intros b [X _]. exact X. }
  assert (Fl : Forall (fun x => is_finite x = true) (last14 (map low (df ta)))).
  { rewrite last14_map. apply Forall_map.
    eapply Forall_impl; [|exact F]. intros b [_ X]. exact X. }
  assert (Nh : last14 (map high (df ta)) <> []).
  { apply last14_nonempty. now rewrite length_map. }
  assert (Nl : last14 (map low (df ta)) <> []).
  { apply last14_nonempty. now rewrite length_map. }
  destruct (maximum_finite _ Nh Fh) as [hi [Hhi Uhi]].
  destruct (minimum_finite _ Nl Fl) as [lo [Hlo Ulo]].
  exists hi, lo, (Qred (Qred (hi - lo) / c)).
  split; [|split; [|split]].
  - rewrite (current_atr_eq ta (Fin c) Hc).
    rewrite !window_value_full by (rewrite ?length_map; assumption).
    rewrite Hhi, Hlo. cbn [Num.sub Num.div].
    destruct (Qeq_bool c 0) eqn:E; [|reflexivity].
    apply Qeq_bool_iff in E. contradiction.
  - now rewrite !Qred_correct.
  - intros b h I E. apply Uhi. rewrite last14_map, <- E.
    apply in_map, I.
  - intros b l I E. apply Ulo. rewrite last14_map, <- E.
    apply in_map, I.
Qed.

Lemma iloc_last_skipn (n : nat) (s : list num) :
  (n < List.length s)%nat -> iloc_last (skipn n s) = iloc_last s.
Proof.
  revert s. induction n as [|n IH]; intros s H; [reflexivity|].
  destruct s as [|x s]; [cbn in H; lia|].
  cbn [skipn]. rewrite IH by (cbn in H; lia).
  destruct s; [cbn in H; lia | reflexivity].
Qed.

Lemma last14_length {A : Type} (s : list A) :
  (14 <= List.length s)%nat -> List.length (last14 s) = 14%nat.
Proof. intro H. unfold last14. rewrite length_skipn. lia. Qed.

Lemma last14_idempotent {A : Type} (s : list A) :
  (14 <= List.length s)%nat -> last14 (last14 s) = last14 s.
Proof.
  intro H. unfold last14 at 1. rewrite (last14_length s H). reflexivity.
Qed.

Lemma window_value_last14 agg (s : list num) :
  (14 <= List.length s)%nat ->
  window_value agg 14 s = window_value agg 14 (last14 s).
Proof.
  intro H. unfold window_value. fold (last14 s). fold (last14 (last14 s)).
  rewrite (last14_idempotent s H), (last14_length s H).
  destruct (Nat.ltb_spec (List.length s) 14); [lia | reflexivity].
Qed.

(** The volatility proxy reads the last fourteen bars only. *)
Lemma current_atr_last14 (ta : TA.t) :
  (14 <= List.length (df ta))%nat ->
  current_atr ta = current_atr {| df := last14 (df ta) |}.
Proof.
  intro H.
  assert (N : df ta <> []) by (destruct (df ta); [cbn in H; lia | discriminate]).
  assert (N' : last14 (df ta) <> []) by (apply last14_nonempty, H).
  destruct (last_close_ok ta N) as [c Hc].
  assert (Hc' : iloc_last (map close (last14 (df ta))) = Ok c).
  { rewrite <- last14_map. unfold last14. rewrite iloc_last_skipn.
    - exact Hc.
    - rewrite length_map. lia. }
  rewrite (current_atr_eq ta c Hc).
  rewrite (current_atr_eq {| df := last14 (df ta) |} c Hc').
  cbn [df]. rewrite <- !last14_map.
  rewrite <- !window_value_last14 by (rewrite length_map; exact H).
  reflexivity.
Qed.

End Windows.

Section TargetClaims.

Import TechnicalAnalysis.

(** The steps listed by [target_steps] are those of the code: the targets
    it returns are the tenth and the twelfth, and the distances are the
    absolute values of the two that follow. *)
Lemma target_steps_trace (ta : TA.t) (cp : num) (trend : string) (rr : num)
    (t : Targets) :
  calculate_trade_targets ta cp trend rr = Ok t ->
  nth 9 (target_steps ta cp trend rr) NaN = stop_loss t /\
  nth 11 (target_steps ta cp trend rr) NaN = take_profit t /\
  Num.abs (nth 12 (target_steps ta cp trend rr) NaN) = risk_distance t /\
  Num.abs (nth 13 (target_steps ta cp trend rr) NaN) = reward_distance t /\
  nth 14 (target_steps ta cp trend rr) NaN = (risk_distance t * rr)%num.
Proof.
  intro H.
  assert (N : df ta <> []).
  { intro E. rewrite (calculate_trade_targets_empty ta cp trend rr E) in H.
    discriminate H. }
  destruct (last_close_ok ta N) as [c Hc].
  rewrite (targets_of_atr ta cp trend rr _ (current_atr_eq ta c Hc)) in H.
  injection H as <-. unfold target_steps. rewrite Hc.
  destruct (String.eqb trend "long"); repeat split; reflexivity.
Qed.

(** C5, as the code has it.  On a frame with a complete window of fourteen
    finite bars whose highest high is not below its lowest low, with a
    positive last close, a positive current price and a positive ratio,
    the targets lie on the two sides of the price, or on it: stop loss at
    or below and take profit at or above for a long position, the reverse
    for a short one.  The ordering is strict when, in addition, the
    highest high is above the lowest low and no operation of the
    computation rounds. *)
Theorem C5_targets_ordered (ta : TA.t) (trend : string)
    (p r c h l : Q) (bh bl : Bar) :
  (14 <= List.length (df ta))%nat ->
  Forall finite_range (last14 (df ta)) ->
  iloc_last (map close (df ta)) = Ok (Fin c) -> 0 < c ->
  In bh (last14 (df ta)) -> high bh = Fin h ->
  In bl (last14 (df ta)) -> low bl = Fin l -> l <= h ->
  0 < p -> 0 < r ->
  exists t,
    calculate_trade_targets ta (Fin p) trend (Fin r) = Ok t /\
    (if String.eqb trend "long"
     then SF.leb (stop_loss t) (Fin p) = true /\
          SF.leb (Fin p) (take_profit t) = true
     else SF.leb (take_profit t) (Fin p) = true /\
          SF.leb (Fin p) (stop_loss t) = true) /\
    (l < h ->
     forallb binary64 (target_steps ta (Fin p) trend (Fin r)) = true ->
     if String.eqb trend "long"
     then (stop_loss t <? Fin p)%num = true /\
          (Fin p <? take_profit t)%num = true
     else (take_profit t <? Fin p)%num = true /\
          (Fin p <? stop_loss t)%num = true).
Proof.
  intros L F Hc Pc Ih Eh Il El Hlh Pp Pr.
  destruct (current_atr_window ta c L F Hc) as [hi [lo [v [Ha [Hv [U D]]]]]].
  { intro Z. rewrite Z in Pc. discriminate Pc. }
  pose proof (U bh h Ih Eh) as Uh. pose proof (D bl l Il El) as Dl.
  rewrite (targets_of_atr ta (Fin p) trend (Fin r) _ Ha).
  eexists. split; [reflexivity|]. split.
  - assert (Pv : 0 <= v).
    { rewrite Hv. apply Qle_shift_div_l; [exact Pc | lra]. }
    assert (Ppv : 0 <= p * v) by (apply Qmult_le_0_compat; lra).
    assert (Ppvr : 0 <= p * v * r) by (apply Qmult_le_0_compat; lra).
    destruct (String.eqb trend "long");
      cbn [stop_loss take_profit Num.mul Num.add Num.sub SF.leb];
      split; apply Qle_bool_iff; rewrite !Qred_correct; lra.
  - intros Hlt _.
    assert (Pv : 0 < v).
    { rewrite Hv. apply Qlt_shift_div_l; [exact Pc | lra]. }
    assert (Ppv : 0 < p * v) by (apply Qmult_lt_0_compat; assumption).
    assert (Ppvr : 0 < p * v * r) by (apply Qmult_lt_0_compat; assumption).
    destruct (String.eqb trend "long");
      cbn [stop_loss take_profit Num.mul Num.add Num.sub Num.ltb];
      split; apply Qltb_lt; rewrite !Qred_correct; lra.
Qed.

(** C5 on the dyadic frame: range 9 to 12, close 8, price 100, ratio 2;
    no step rounds, and the targets are 43.75 and 212.5. *)
Lemma C5_targets_ordered_witness :
  exists t,
    calculate_trade_targets frame_dyadic (Fin 100) "long" (Fin 2) = Ok t /\
    (SF.leb (stop_loss t) (Fin 100) = true /\
     SF.leb (Fin 100) (take_profit t) = true) /\
    (stop_loss t <? Fin 100)%num = true /\
    (Fin 100 <? take_profit t)%num = true.
Proof.
  destruct (C5_targets_ordered frame_dyadic "long" 100 2 8 12 9
              (mk_bar 12 10 8) (mk_bar 11 9 8)) as [t [Ht [Hn Hs]]].
  - simpl. lia.
  - unfold finite_range. repeat constructor.
  - reflexivity.
  - reflexivity.
  - simpl. tauto.
  - reflexivity.
  - simpl. tauto.
  - reflexivity.
  - discriminate.
  - reflexivity.
  - reflexivity.
  - exists t. split; [exact Ht|]. split; [exact Hn|].
    apply Hs; reflexivity.
Defined.

(** The claim of C5 fails on a flat market: fourteen bars with high = low
    give a stop distance of zero, and both targets sit on the price. *)
Lemma C5_flat_market_counterexample :
  calculate_trade_targets frame_flat (Fin 100) "long" (Fin 2)
  = Ok {| stop_loss := Fin 100; take_profit := Fin 100;
          risk_distance := Fin 0; reward_distance := Fin 0 |}
  /\ (Fin 100 <? Fin 100)%num = false.
Proof. split; reflexivity. Qed.




End TargetClaims.

(** ** The targets on the floats of the program *)

Section Binary64Targets.

Import PrimFloat.

(** Where no operation rounds, the floats are the numbers of the model:
    range 9 to 12, close 8, price 100, ratio 2. *)
Example binary64_dyadic_targets :
  B64.calculate_trade_targets (B64.frame 12 9 8) 100 "long" 2
  = Ok {| B64.stop_loss := 43.75; B64.take_profit := 212.5;
          B64.risk_distance := 56.25; B64.reward_distance := 112.5 |}.
Proof. vm_compute. reflexivity. Qed.

(** A small ratio: the reward, 45e-20, is absorbed by the rounding of the
    sum, and the take profit of a long position is the price itself,
    although the range is positive. *)
Example binary64_take_profit_absorbed :
  exists t,
    B64.calculate_trade_targets (B64.frame 12 9 10) 100 "long" 1e-20 = Ok t /\
    (B64.stop_loss t <? 100)%float = true /\
    (B64.take_profit t =? 100)%float = true /\
    (100 <? B64.take_profit t)%float = false.
Proof. eexists. repeat split; vm_compute; reflexivity. Qed.

(** A small range over a large close: the stop distance is absorbed on
    both sides, and both targets are the price. *)
Example binary64_stop_distance_absorbed :
  exists t,
    B64.calculate_trade_targets (B64.frame 10.000000000000002 10 1e6)
      100 "long" 2 = Ok t /\
    (10 <? 10.000000000000002)%float = true /\
    (B64.stop_loss t =? 100)%float = true /\
    (B64.take_profit t =? 100)%float = true.
Proof. eexists. repeat split; vm_compute; reflexivity. Qed.

(** Decimal prices: the two distances are rounded separately, and the
    reward distance is not the risk distance times the ratio. *)
Example binary64_reward_rounds :
  exists t,
    B64.calculate_trade_targets (B64.frame 3.5 3.3 3.4) 3.4 "long" 2 = Ok t /\
    (B64.reward_distance t =? 0.6000000000000001)%float = true /\
    (B64.risk_distance t * 2 =? 0.6000000000000005)%float = true /\
    (B64.reward_distance t =? B64.risk_distance t * 2)%float = false.
Proof. eexists. repeat split; vm_compute; reflexivity. Qed.

(** A price near the largest float: the reward distance overflows. *)
Example binary64_reward_overflows :
  exists t,
    B64.calculate_trade_targets (B64.frame 12 9 10) 1e308 "long" 2 = Ok t /\
    B64.reward_distance t = infinity.
Proof. eexists. split; vm_compute; reflexivity. Qed.

(** Fewer than fourteen bars: every field is NaN. *)
Example binary64_short_frame :
  exists t,
    B64.calculate_trade_targets
      (repeat {| B64.high := 12; B64.low := 9; B64.close := 10 |} 3)
      100 "long" 2 = Ok t /\
    is_nan (B64.stop_loss t) = true /\
    is_nan (B64.take_profit t) = true /\
    is_nan (B64.risk_distance t) = true /\
    is_nan (B64.reward_distance t) = true.
Proof. eexists. repeat split; vm_compute; reflexivity. Qed.

End Binary64Targets.

(** ** Entry timing *)

Section TimingClaims.

Import SignalGenerator.

Lemma entry_conditions_caveats (tech : dict) :
  entry_conditions tech = caveats tech.
Proof.
  unfold entry_conditions, caveats.
  destruct (flag tech "rsi_oversold"), (flag tech "rsi_overbought"),
    (flag tech "high_volume"); reflexivity.
Qed.

(** C7.  The entry timing is "immediate" exactly when the volume is high
    and the verdict's confidence is above 0.8, or when no caveat applies;
    in every other case it is "delayed: " followed by the caveats that
    apply, joined by commas, in the order oversold, overbought, volume. *)
Theorem C7_entry_timing (tech ai : dict) :
  confidence_ok ai ->
  exists c s,
    timing_confidence ai = Ok c /\
    _get_entry_timing tech ai = Ok s /\
    (s = "immediate" <->
       (flag tech "high_volume" = true /\ (Fin 0.8 <? c)%num = true)
       \/ caveats tech = []) /\
    (s <> "immediate" -> s = "delayed: " ++ join ", " (caveats tech)).
Proof.
  intro H. destruct (confidence_ok_timing ai H) as [c Hc].
  exists c. unfold _get_entry_timing, entry_guard.
  rewrite entry_conditions_caveats.
  pose proof Hc as Hc'. unfold timing_confidence in Hc'. rewrite Hc'.
  unfold caveats. cbn [bind].
  destruct (flag tech "high_volume"), (Fin 0.8 <? c)%num,
    (flag tech "rsi_oversold"), (flag tech "rsi_overbought");
    cbn [bind negb filter map fst snd];
    eexists; (split; [exact Hc|]); (split; [reflexivity|]);
    (split; [split|]);
    try (intros; reflexivity);
    try (intro X; discriminate X);
    try (intro X; now elim X);
    try (intros [[X Y]|X]; discriminate);
    auto.
Qed.

(** C7 with every caveat triggered. *)
Lemma C7_entry_timing_witness :
  _get_entry_timing
    [("rsi_oversold", PBool true); ("rsi_overbought", PBool true)]
    [("confidence_score", PNum (Fin 0.9))]
  = Ok ("delayed: wait for RSI recovery, wait for RSI pullback, "
        ++ "wait for volume confirmation").
Proof.
  destruct (C7_entry_timing
              [("rsi_oversold", PBool true); ("rsi_overbought", PBool true)]
              [("confidence_score", PNum (Fin 0.9))])
    as [c [s [_ [Hs [_ Hd]]]]].
  - simpl. exists (Fin 0.9). reflexivity.
  - rewrite Hs. f_equal. apply Hd.
    vm_compute in Hs. injection Hs as <-. discriminate.
Defined.

End TimingClaims.

(** ** The record as a function of its inputs *)

Section PurityClaims.

Import SignalGenerator.

(** C8, as the code has it.  The clock and the frame of the target
    calculator reach two entries only.  Two invocations with the same
    price, conditions, verdict, ratio and threshold, at any two clock
    readings and over any two frames, that both return a record, return
    records with the same keys in the same order and the same value under
    every key other than [timestamp] and [targets]; each [timestamp] is
    the clock reading of its invocation; the [targets] agree as well when
    the two frames have the same volatility proxy, and so when they have
    fourteen bars or more and the same last fourteen bars. *)
Theorem C8_clock_and_frame_reach_two_entries (self : t) (cp : num)
    (tech ai : dict) (ta1 ta2 : TA.t) (now1 now2 : string) (d1 d2 : dict) :
  _generate_final_signal self now1 cp tech ai ta1 = Ok d1 ->
  _generate_final_signal self now2 cp tech ai ta2 = Ok d2 ->
  map fst d1 = map fst d2 /\
  without_keys ["timestamp"; "targets"] d1
  = without_keys ["timestamp"; "targets"] d2 /\
  (exists s c,
      lookup d1 "signal" = Some (PStr s) /\
      lookup d1 "confidence" = Some (PNum c)) /\
  lookup d1 "timestamp" = Some (PStr now1) /\
  lookup d2 "timestamp" = Some (PStr now2) /\
  (TA.current_atr ta1 = TA.current_atr ta2 ->
   lookup d1 "targets" = lookup d2 "targets") /\
  ((14 <= List.length (TA.df ta1))%nat ->
   (14 <= List.length (TA.df ta2))%nat ->
   last14 (TA.df ta1) = last14 (TA.df ta2) ->
   lookup d1 "targets" = lookup d2 "targets").
Proof.
  unfold _generate_final_signal.
  destruct (final_scores tech ai) as [[bull bear]|e]; cbn [bind];
    [|discriminate].
  destruct (signal_type self bull bear) as [s|].
  - assert (A : TA.current_atr ta1 = TA.current_atr ta2 ->
                TA.calculate_trade_targets ta1 cp
                  (if String.eqb s "buy" then "long" else "short")
                  (risk_reward_ratio self)
                = TA.calculate_trade_targets ta2 cp
                    (if String.eqb s "buy" then "long" else "short")
                    (risk_reward_ratio self)).
    { intro E. unfold TA.calculate_trade_targets. now rewrite E. }
    destruct (TA.calculate_trade_targets ta1 cp _ _) as [tg1|e]; cbn [bind];
      [|discriminate].
    destruct (TA.calculate_trade_targets ta2 cp _ _) as [tg2|e]; cbn [bind];
      [|discriminate].
    destruct (_get_entry_timing tech ai) as [tm|e]; cbn [bind];
      [|discriminate].
    intros H1 H2. injection H1 as <-. injection H2 as <-.
    split; [reflexivity|]. split; [reflexivity|].
    split; [do 2 eexists; split; reflexivity|].
    split; [reflexivity|]. split; [reflexivity|].
    assert (T : TA.current_atr ta1 = TA.current_atr ta2 ->
                lookup
                  [("targets",
                    PDict [("stop_loss", PNum (TA.stop_loss tg1));
                           ("take_profit", PNum (TA.take_profit tg1))])]
                  "targets"
                = lookup
                    [("targets",
                      PDict [("stop_loss", PNum (TA.stop_loss tg2));
                             ("take_profit", PNum (TA.take_profit tg2))])]
                    "targets").
    { intro E. specialize (A E). injection A as <-. reflexivity. }
    split.
    + exact T.
    + intros L1 L2 E. apply T.
      rewrite (current_atr_last14 ta1 L1), (current_atr_last14 ta2 L2), E.
      reflexivity.
  - intros H1 H2. injection H1 as <-. injection H2 as <-.
    split; [reflexivity|]. split; [reflexivity|].
    split; [do 2 eexists; split; reflexivity|].
    split; [reflexivity|]. split; [reflexivity|].
    split; reflexivity.
Qed.

(** C8 on the scenario, five minutes apart, over the regular frame and
    over the flat one. *)
Lemma C8_clock_and_frame_reach_two_entries_witness :
  exists d1 d2,
    _generate_final_signal (init "1h") "2025-01-01T00:00:00" (Fin 100)
      scenario_technical scenario_sentiment frame_regular = Ok d1 /\
    _generate_final_signal (init "1h") "2025-01-01T00:05:00" (Fin 100)
      scenario_technical scenario_sentiment frame_flat = Ok d2 /\
    map fst d1 = map fst d2 /\
    without_keys ["timestamp"; "targets"] d1
    = without_keys ["timestamp"; "targets"] d2 /\
    lookup d1 "timestamp" = Some (PStr "2025-01-01T00:00:00") /\
    lookup d2 "timestamp" = Some (PStr "2025-01-01T00:05:00").
Proof.
  do 2 eexists. split; [reflexivity|]. split; [reflexivity|].
  destruct (C8_clock_and_frame_reach_two_entries (init "1h") (Fin 100)
              scenario_technical scenario_sentiment frame_regular frame_flat
              "2025-01-01T00:00:00" "2025-01-01T00:05:00" _ _
              eq_refl eq_refl) as [K [W [_ [T1 [T2 _]]]]].
  repeat split; assumption.
Defined.

(** The claim of C8 fails: with the same price, conditions, verdict, ratio
    and threshold, two invocations five minutes apart return records that
    differ in the timestamp, and two invocations over different frames
    return records that differ in the targets. *)
Lemma C8_same_inputs_counterexample :
  (exists d1 d2,
      _generate_final_signal (init "1h") "2025-01-01T00:00:00" (Fin 100)
        scenario_technical scenario_sentiment frame_regular = Ok d1 /\
      _generate_final_signal (init "1h") "2025-01-01T00:05:00" (Fin 100)
        scenario_technical scenario_sentiment frame_regular = Ok d2 /\
      lookup d1 "timestamp" = Some (PStr "2025-01-01T00:00:00") /\
      lookup d2 "timestamp" = Some (PStr "2025-01-01T00:05:00") /\
      d1 <> d2)
  /\
  (exists d1 d2,
      _generate_final_signal (init "1h") "2025-01-01T00:00:00" (Fin 100)
        scenario_technical scenario_sentiment frame_regular = Ok d1 /\
      _generate_final_signal (init "1h") "2025-01-01T00:00:00" (Fin 100)
        scenario_technical scenario_sentiment frame_flat = Ok d2 /\
      lookup d1 "targets"
        = Some (PDict [("stop_loss", PNum (Fin 55));
                       ("take_profit", PNum (Fin 190))]) /\
      lookup d2 "targets"
        = Some (PDict [("stop_loss", PNum (Fin 100));
                       ("take_profit", PNum (Fin 100))]) /\
      d1 <> d2).
Proof.
  split; do 2 eexists;
    (split; [reflexivity|]); (split; [reflexivity|]);
    (split; [reflexivity|]); (split; [reflexivity|]);
    intro E.
  - apply (f_equal (fun d => lookup d "timestamp")) in E. discriminate E.
  - apply (f_equal (fun d => lookup d "targets")) in E.
    vm_compute in E. discriminate E.
Qed.

End PurityClaims.

(** ** Sentiment of a text *)

Section SentimentClaims.

Import DeepSeekClient.

(** A keyword passes the test [word in content] exactly when it occurs at
    least once. *)
Lemma contains_occurs (content word : string) :
  contains content word = (0 <? spec_occurrences content word)%nat.
Proof.
  induction content as [|a r IH]; cbn [contains spec_occurrences].
  - destruct (String.prefix word ""); reflexivity.
  - destruct (String.prefix word (String a r)); [reflexivity|].
    rewrite IH. reflexivity.
Qed.

Lemma list_sum_ones {A : Type} (l : list A) :
  list_sum (map (fun _ => 1%nat) l) = List.length l.
Proof. induction l as [|x l IH]; simpl; [reflexivity | now rewrite IH]. Qed.

Lemma keyword_count_distinct (keywords : list string) (content : string) :
  keyword_count keywords content = distinct_count keywords content.
Proof.
  unfold keyword_count, distinct_count. rewrite list_sum_ones.
  f_equal. apply filter_ext. intro w. apply contains_occurs.
Qed.

Lemma distinct_count_bound (keywords : list string) (content : string) :
  (distinct_count keywords content <= List.length keywords)%nat.
Proof. unfold distinct_count. apply filter_length_le. Qed.

(** C9, as the code has it.  The polarity compares, for the lower-cased
    text, how many of the five bullish keywords occur in it with how many of
    the five bearish keywords occur in it, each keyword counting once
    however often it is repeated: bullish when the first number is strictly
    greater, bearish when the second is, neutral when they are equal, as
    they are for a text with no keyword. *)
Theorem C9_sentiment_by_distinct_keywords (content : string) :
  let nbull := distinct_count bullish_keywords (lower content) in
  let nbear := distinct_count bearish_keywords (lower content) in
  (_extract_sentiment content = "bullish" <-> (nbear < nbull)%nat) /\
  (_extract_sentiment content = "bearish" <-> (nbull < nbear)%nat) /\
  (_extract_sentiment content = "neutral" <-> nbull = nbear) /\
  (nbull <= 5)%nat /\ (nbear <= 5)%nat.
Proof.
  intros nbull nbear. unfold _extract_sentiment.
  rewrite !keyword_count_distinct. fold nbull nbear.
  pose proof (distinct_count_bound bullish_keywords (lower content)) as B1.
  pose proof (distinct_count_bound bearish_keywords (lower content)) as B2.
  fold nbull in B1. fold nbear in B2. simpl in B1, B2.
  destruct (Nat.ltb_spec nbear nbull) as [X|X];
    [|destruct (Nat.ltb_spec nbull nbear) as [Y|Y]];
    repeat split; intros; try discriminate; try lia; auto.
Qed.

(** The claim of C9 fails when a keyword is repeated: the text has three
    occurrences of bullish keywords against two of bearish ones, and the
    code answers bearish, because one bullish keyword occurs in it against
    two bearish ones. *)
Lemma C9_repeated_keyword_counterexample :
  spec_occurrence_count bullish_keywords (lower text_repeated) = 3%nat /\
  spec_occurrence_count bearish_keywords (lower text_repeated) = 2%nat /\
  spec_extract_sentiment text_repeated = "bullish" /\
  distinct_count bullish_keywords (lower text_repeated) = 1%nat /\
  distinct_count bearish_keywords (lower text_repeated) = 2%nat /\
  _extract_sentiment text_repeated = "bearish".
Proof. repeat split; vm_compute; reflexivity. Qed.

End SentimentClaims.

(** ** Missing confidence *)

Section DefaultClaims.

Import SignalGenerator.

(** C10.  When the verdict has no [confidence_score], the scoring behaves as
    if it were 0.5, so that a bullish or a bearish sentiment adds 0.25 to
    its side, and the entry timing behaves as if it were 0, so that the
    guard on volume and confidence is false and the timing is "immediate"
    only when no caveat applies. *)
Theorem C10_confidence_defaults (tech ai : dict) :
  lookup ai "confidence_score" = None ->
  final_scores tech ai
    = final_scores tech (("confidence_score", PNum (Fin 0.5)) :: ai) /\
  _get_entry_timing tech ai
    = _get_entry_timing tech (("confidence_score", PNum (Fin 0)) :: ai) /\
  (exists b r,
      technical_scores tech = (Fin b, Fin r) /\
      (is_bullish ai = true ->
       exists b', final_scores tech ai = Ok (Fin b', Fin r) /\
                  b' == b + 0.25) /\
      (is_bearish ai = true ->
       exists r', final_scores tech ai = Ok (Fin b, Fin r') /\
                  r' == r + 0.25)) /\
  entry_guard tech ai = Ok false /\
  (exists s, _get_entry_timing tech ai = Ok s /\
             (s = "immediate" <-> caveats tech = [])).
Proof.
  intro H.
  assert (G5 : get ai "confidence_score" (PNum (Fin 0.5)) = PNum (Fin 0.5)).
  { unfold get. now rewrite H. }
  assert (G0 : get ai "confidence_score" (PNum (Fin 0)) = PNum (Fin 0)).
  { unfold get. now rewrite H. }
  assert (Eg : entry_guard tech ai = Ok false).
  { unfold entry_guard. rewrite G0.
    destruct (flag tech "high_volume"); reflexivity. }
  split; [|split; [|split; [|split]]].
  - unfold final_scores, ai_scores. rewrite G5. reflexivity.
  - unfold _get_entry_timing, entry_guard. rewrite G0. reflexivity.
  - destruct (technical_scores_value tech) as [b [r [E _]]].
    exists b, r. split; [exact E|].
    unfold final_scores, ai_scores. rewrite E, G5.
    fold (is_bullish ai). fold (is_bearish ai).
    split; intro S.
    + rewrite S. cbn [as_num bind Num.add Num.mul].
      eexists. split; [reflexivity|]. rewrite !Qred_correct. ring.
    + destruct (is_bullish ai) eqn:Bu.
      * apply bullish_not_bearish in Bu. congruence.
      * rewrite S. cbn [as_num bind Num.add Num.mul].
        eexists. split; [reflexivity|]. rewrite !Qred_correct. ring.
  - exact Eg.
  - unfold _get_entry_timing. rewrite Eg. cbn [bind].
    rewrite entry_conditions_caveats.
    eexists. split; [reflexivity|].
    destruct (caveats tech) as [|x l]; split; intro X;
      try reflexivity; discriminate X.
Qed.

(** C10 on a bullish verdict with no confidence, over an oversold uptrend
    on high volume: the bull score is 0.35 + 0.25, and the only way to
    "immediate" is closed by the oversold caveat. *)
Lemma C10_confidence_defaults_witness :
  final_scores
    [("uptrend", PBool true); ("rsi_oversold", PBool true);
     ("high_volume", PBool true)]
    [("sentiment", PStr "bullish")]
  = Ok (Fin (Qred 0.6), Fin 0)
  /\
  _get_entry_timing
    [("uptrend", PBool true); ("rsi_oversold", PBool true);
     ("high_volume", PBool true)]
    [("sentiment", PStr "bullish")]
  = Ok "delayed: wait for RSI recovery".
Proof.
  destruct (C10_confidence_defaults
              [("uptrend", PBool true); ("rsi_oversold", PBool true);
               ("high_volume", PBool true)]
              [("sentiment", PStr "bullish")] eq_refl)
    as [Hs [Ht _]].
  split; [rewrite Hs | rewrite Ht]; reflexivity.
Defined.

End DefaultClaims.

(** ** The scenarios of the specification, replayed *)

Section Scenarios.

Import SignalGenerator.

(** No flag and a neutral verdict: both scores are 0, the signal is
    neutral with confidence 0. *)
Example scenario_no_flags_neutral :
  _generate_final_signal (init "1h") "2025-01-01T00:00:00" (Fin 100)
    [] [("sentiment", PStr "neutral")] frame_regular
  = Ok [ ("timestamp", PStr "2025-01-01T00:00:00");
         ("signal", PStr "neutral");
         ("message", PStr "No clear trading opportunity");
         ("confidence", PNum (Fin 0)) ].
Proof. reflexivity. Qed.

(** A price of 100 with a stop distance of 2 (range 2 over a close of 150)
    and a ratio of 2, long: stop loss 98, take profit 104, risk 2,
    reward 4. *)
Example scenario_stop_distance_two :
  TA.calculate_trade_targets
    (mk_frame 13 (mk_bar 151 149 150) (mk_bar 151 149 150))
    (Fin 100) "long" (Fin 2)
  = Ok {| TA.stop_loss := Fin 98; TA.take_profit := Fin 104;
          TA.risk_distance := Fin 2; TA.reward_distance := Fin 4 |}.
Proof. reflexivity. Qed.

(** An empty frame is the one input on which the target calculator raises,
    and a directional decision over it raises with it. *)
Example scenario_empty_frame :
  _generate_final_signal (init "1h") "2025-01-01T00:00:00" (Fin 100)
    scenario_technical scenario_sentiment {| TA.df := [] |}
  = Raise IndexError.
Proof. reflexivity. Qed.

(** A confidence that is not a number is a [TypeError] in the scoring of a
    bullish verdict. *)
Example scenario_confidence_none :
  final_scores scenario_technical
    [("sentiment", PStr "bullish"); ("confidence_score", PNone)]
  = Raise TypeError.
Proof. reflexivity. Qed.

End Scenarios.

(** * Properties of the rest of the code *)

(** ** The confidence of a text *)

Section ConfidenceFacts.

Import DeepSeekClient DeepSeekResponse.

Lemma keyword_count_le (keywords : list string) (content : string) :
  (keyword_count keywords content <= List.length keywords)%nat.
Proof.
  rewrite keyword_count_distinct. apply distinct_count_bound.
Qed.

(** The value of the heuristic for given counts, within the bounds of the
    three lists. *)
Lemma confidence_of_counts (h m l : nat) :
  (h <= 4)%nat -> (m <= 3)%nat -> (l <= 4)%nat ->
  exists q,
    (if (h + m + l =? 0)%nat then Fin 0.5
     else ((of_nat h * Fin 1.0 + of_nat m * Fin 0.6 + of_nat l * Fin 0.2)
           / of_nat (h + m + l))%num) = Fin q /\
    0.2 <= q /\ q <= 1 /\
    ((1 <= h)%nat -> (1 <= l)%nat -> 0.36 <= q) /\
    (q == 0.2 -> h = 0%nat /\ m = 0%nat).
Proof.
  intros Hh Hm Hl.
  destruct h as [|[|[|[|[|h]]]]]; try lia;
    destruct m as [|[|[|[|m]]]]; try lia;
    destruct l as [|[|[|[|[|l]]]]]; try lia;
    (eexists; split; [vm_compute; reflexivity|]);
    (split; [vm_compute; discriminate|]);
    (split; [vm_compute; discriminate|]);
    (split; [intros; try lia; vm_compute; discriminate|]);
    intro E; try (split; reflexivity); vm_compute in E; discriminate E.
Qed.

(** X1.  The confidence heuristic always gives a finite number between 0.2
    and 1.  A text in which no marker of any of the three lists occurs
    gets 0.5; the lowest value, 0.2, goes only to a text that has no
    marker of high or medium confidence. *)
Theorem X1_confidence_range (content : string) :
  (exists q,
     _extract_confidence content = Fin q /\
     0.2 <= q /\ q <= 1 /\
     (q == 0.2 ->
      keyword_count high_confidence (lower content) = 0%nat /\
      keyword_count medium_confidence (lower content) = 0%nat)) /\
  (keyword_count high_confidence (lower content) = 0%nat ->
   keyword_count medium_confidence (lower content) = 0%nat ->
   keyword_count low_confidence (lower content) = 0%nat ->
   _extract_confidence content = Fin 0.5).
Proof.
  split.
  - unfold _extract_confidence.
    pose proof (keyword_count_le high_confidence (lower content)) as Hh.
    pose proof (keyword_count_le medium_confidence (lower content)) as Hm.
    pose proof (keyword_count_le low_confidence (lower content)) as Hl.
    simpl in Hh, Hm, Hl.
    destruct (confidence_of_counts _ _ _ Hh Hm Hl) as [q [E [L [U [_ Z]]]]].
    exists q. cbv zeta. rewrite E. auto.
  - intros Hh Hm Hl. unfold _extract_confidence. cbv zeta.
    rewrite Hh, Hm, Hl. reflexivity.
Qed.

(** A word that ends an occurring word occurs too. *)
Lemma prefix_app_contains (u w s : string) :
  String.prefix (u ++ w) s = true -> contains s w = true.
Proof.
  revert s. induction u as [|a u IH]; intros s H.
  - change ("" ++ w) with w in H.
    destruct s; cbn [contains]; rewrite H; reflexivity.
  - destruct s as [|b s]; [discriminate H|].
    simpl in H. destruct (ascii_dec a b); [|discriminate H].
    cbn [contains]. rewrite (IH s H). apply orb_true_r.
Qed.

Lemma contains_suffix (u w s : string) :
  contains s (u ++ w) = true -> contains s w = true.
Proof.
  induction s as [|b s IH]; cbn [contains]; intro H.
  - rewrite orb_false_r in H. apply prefix_app_contains in H.
    cbn [contains] in H. exact H.
  - apply orb_true_iff in H. destruct H as [H|H].
    + apply prefix_app_contains in H. cbn [contains] in H. exact H.
    + rewrite (IH H). apply orb_true_r.
Qed.

(** X2.  The marker "clear" of high confidence occurs inside the marker
    "unclear" of low confidence: a text that says "unclear" is counted on
    both sides, and its confidence is never below 0.36. *)
Theorem X2_unclear_counts_as_clear (content : string) :
  contains (lower content) "unclear" = true ->
  contains (lower content) "clear" = true /\
  exists q, _extract_confidence content = Fin q /\ 0.36 <= q.
Proof.
  intro H.
  assert (C : contains (lower content) "clear" = true).
  { apply (contains_suffix "un" "clear"). exact H. }
  split; [exact C|].
  unfold _extract_confidence.
  pose proof (keyword_count_le high_confidence (lower content)) as Hh.
  pose proof (keyword_count_le medium_confidence (lower content)) as Hm.
  pose proof (keyword_count_le low_confidence (lower content)) as Hl.
  simpl in Hh, Hm, Hl.
  destruct (confidence_of_counts _ _ _ Hh Hm Hl) as [q [E [_ [_ [B _]]]]].
  exists q. cbv zeta. rewrite E. split; [reflexivity|].
  apply B.
  - unfold keyword_count, high_confidence. cbn [filter]. rewrite C.
    destruct (contains (lower content) "confident"),
      (contains (lower content) "strong"),
      (contains (lower content) "definitely"); simpl; lia.
  - unfold keyword_count, low_confidence. cbn [filter]. rewrite H.
    destruct (contains (lower content) "uncertain"),
      (contains (lower content) "might"),
      (contains (lower content) "maybe"); simpl; lia.
Qed.

(** X2 on a text whose only marker is "unclear": 0.6, not 0.2. *)
Lemma X2_unclear_counts_as_clear_witness :
  contains (lower "The trend is UNCLEAR") "clear" = true /\
  _extract_confidence "The trend is UNCLEAR" = Fin (3 # 5).
Proof.
  destruct (X2_unclear_counts_as_clear "The trend is UNCLEAR" eq_refl)
    as [C _].
  split; [exact C | reflexivity].
Defined.

End ConfidenceFacts.

(** ** Price levels in a text *)

Section KeyLevelFacts.

Import DeepSeekClient DeepSeekResponse.

Lemma span_digits_app (s ds rest : string) :
  span_digits s = (ds, rest) -> s = ds ++ rest.
Proof.
  revert ds rest. induction s as [|c r IH]; intros ds rest H.
  - injection H as <- <-. reflexivity.
  - cbn [span_digits] in H. destruct (is_digit c).
    + destruct (span_digits r) as [ds' rest'] eqn:E.
      injection H as <- <-. cbn. f_equal. apply IH. reflexivity.
    + injection H as <- <-. reflexivity.
Qed.

Lemma length_app_string (a b : string) :
  String.length (a ++ b) = (String.length a + String.length b)%nat.
Proof. induction a as [|c a IH]; cbn; [reflexivity | now rewrite IH]. Qed.

Lemma dollars_app (a b : string) :
  dollars (a ++ b) = (dollars a + dollars b)%nat.
Proof. induction a as [|c a IH]; cbn; [reflexivity | rewrite IH; lia]. Qed.

Lemma append_nil_string (a : string) : a ++ "" = a.
Proof. induction a as [|c a IH]; cbn; [reflexivity | now rewrite IH]. Qed.

Lemma append_assoc_string (a b c : string) : (a ++ b) ++ c = a ++ (b ++ c).
Proof. induction a as [|x a IH]; cbn; [reflexivity | now rewrite IH]. Qed.

(** What a match leaves is the end of the text it was tried on. *)
Lemma match_level_rest (s m rest : string) :
  match_level s = Some (m, rest) -> exists pre, s = pre ++ rest.
Proof.
  unfold match_level. destruct (span_digits s) as [ip r1] eqn:E1.
  apply span_digits_app in E1. destruct ip as [|c ip]; [discriminate|].
  destruct r1 as [|d r2].
  - intro H. injection H as _ <-. exists s.
    now rewrite append_nil_string.
  - destruct (Ascii.eqb d "."%char) eqn:D.
    + apply Ascii.eqb_eq in D. subst d.
      destruct (span_digits r2) as [fp r3] eqn:E2.
      apply span_digits_app in E2. intro H. injection H as _ <-.
      exists (String c ip ++ "." ++ fp). subst s r2.
      rewrite !append_assoc_string. reflexivity.
    + intro H.
      assert (H' : Some (String c ip, String d r2) = Some (m, rest)).
      { destruct d as [[] [] [] [] [] [] [] []]; try exact H;
          discriminate D. }
      injection H' as _ <-. exists (String c ip). exact E1.
Qed.

Lemma findall_from_bound (fuel : nat) (s : string) :
  (List.length (findall_from fuel s) <= dollars s)%nat.
Proof.
  revert s. induction fuel as [|fuel IH]; intro s; [cbn; lia|].
  destruct s as [|c r]; [cbn; lia|].
  cbn [findall_from dollars]. destruct (Ascii.eqb c "$"%char).
  - destruct (match_level r) as [[m rest]|] eqn:M.
    + destruct (match_level_rest r m rest M) as [pre E].
      pose proof (IH rest) as B. cbn [List.length].
      assert (D : dollars r = (dollars pre + dollars rest)%nat).
      { rewrite E at 1. apply dollars_app. }
      lia.
    + pose proof (IH r). lia.
  - pose proof (IH r). lia.
Qed.

(** The fuel of [findall_levels] is enough: more of it finds the same
    matches. *)
Lemma findall_from_fuel (f1 f2 : nat) (s : string) :
  (String.length s <= f1)%nat -> (String.length s <= f2)%nat ->
  findall_from f1 s = findall_from f2 s.
Proof.
  revert f2 s. induction f1 as [|f1 IH]; intros f2 s H1 H2.
  - destruct s; [|cbn in H1; lia]. destruct f2; reflexivity.
  - destruct s as [|c r]; [destruct f2; reflexivity|].
    destruct f2 as [|f2]; [cbn in H2; lia|].
    cbn in H1, H2. cbn [findall_from].
    destruct (Ascii.eqb c "$"%char); [|apply IH; lia].
    destruct (match_level r) as [[m rest]|] eqn:M; [|apply IH; lia].
    destruct (match_level_rest r m rest M) as [pre E].
    assert (String.length rest <= String.length r)%nat.
    { assert (D : String.length r
                  = (String.length pre + String.length rest)%nat).
      { rewrite E at 1. apply length_app_string. }
      lia. }
    f_equal. apply IH; lia.
Qed.

Lemma digits_value_nonneg (s : string) (acc : Z) :
  (0 <= acc)%Z -> (0 <= digits_value acc s)%Z.
Proof.
  revert acc. induction s as [|c r IH]; intros acc H; cbn [digits_value];
    [exact H|].
  apply IH. unfold digit_value. lia.
Qed.

Lemma float_of_level_nonneg (level : string) :
  exists q, float_of_level level = Fin q /\ 0 <= q.
Proof.
  unfold float_of_level. destruct (span_digits level) as [ip r].
  pose proof (digits_value_nonneg ip 0 (Z.le_refl 0)) as Hi.
  assert (Qi : 0 <= inject_Z (digits_value 0 ip)).
  { change 0 with (inject_Z 0). rewrite <- Zle_Qle. exact Hi. }
  assert (D : forall fp,
             exists q,
               Fin (Qred (inject_Z (digits_value 0 ip)
                          + inject_Z (digits_value 0 fp)
                            / inject_Z (10 ^ Z.of_nat (String.length fp))))
               = Fin q /\ 0 <= q).
  { intro fp. eexists. split; [reflexivity|]. rewrite Qred_correct.
    pose proof (digits_value_nonneg fp 0 (Z.le_refl 0)) as Hf.
    assert (Qf : 0 <= inject_Z (digits_value 0 fp)).
    { change 0 with (inject_Z 0). rewrite <- Zle_Qle. exact Hf. }
    assert (Qp : 0 < inject_Z (10 ^ Z.of_nat (String.length fp))).
    { change 0 with (inject_Z 0). rewrite <- Zlt_Qlt.
      apply Z.pow_pos_nonneg; lia. }
    assert (0 <= inject_Z (digits_value 0 fp)
                 / inject_Z (10 ^ Z.of_nat (String.length fp))).
    { apply Qle_shift_div_l; [exact Qp|]. lra. }
    lra. }
  destruct r as [|d r]; [eexists; split; [reflexivity | exact Qi]|].
  destruct d as [[] [] [] [] [] [] [] []];
    try (eexists; split; [reflexivity | exact Qi]).
  apply D.
Qed.

(** X3.  The levels read in a text are never negative and never NaN, and
    there are no more of them than dollar signs in the text: a text with no
    dollar sign has no level. *)
Theorem X3_key_levels (content : string) :
  (forall x, In x (_extract_key_levels content) ->
             (x <? Fin 0)%num = false /\ is_nan x = false) /\
  (List.length (_extract_key_levels content) <= dollars content)%nat /\
  (forall fuel, (String.length content <= fuel)%nat ->
                findall_from fuel content = findall_levels content).
Proof.
  assert (E : _extract_key_levels content
              = map float_of_level (findall_levels content)).
  { unfold _extract_key_levels. destruct (findall_levels content); reflexivity. }
  rewrite E. split; [|split].
  - intros x I. apply in_map_iff in I. destruct I as [level [<- _]].
    destruct (float_of_level_nonneg level) as [q [-> Hq]].
    split; [|reflexivity]. cbn. apply Qltb_ge. exact Hq.
  - rewrite length_map. apply findall_from_bound.
  - intros fuel H. apply findall_from_fuel; [exact H | apply Nat.le_refl].
Qed.

End KeyLevelFacts.

(** ** The verdict parsed from a response *)

Section ParseFacts.

Import DeepSeekClient DeepSeekResponse.

Lemma extract_sentiment_values (content : string) :
  _extract_sentiment content = "bullish" \/
  _extract_sentiment content = "bearish" \/
  _extract_sentiment content = "neutral".
Proof.
  unfold _extract_sentiment.
  destruct (_ <? _)%nat; [auto|]. destruct (_ <? _)%nat; auto.
Qed.

(** The confidence heuristic, as a helper for the facts below. *)
Lemma extract_confidence_range (content : string) :
  exists q, _extract_confidence content = Fin q /\ 0.2 <= q /\ q <= 1.
Proof.
  unfold _extract_confidence.
  pose proof (keyword_count_le high_confidence (lower content)) as Hh.
  pose proof (keyword_count_le medium_confidence (lower content)) as Hm.
  pose proof (keyword_count_le low_confidence (lower content)) as Hl.
  simpl in Hh, Hm, Hl.
  destruct (confidence_of_counts _ _ _ Hh Hm Hl) as [q [E [L [U _]]]].
  exists q. cbv zeta. rewrite E. auto.
Qed.

(** A parsed verdict is built on a text. *)
Lemma parse_inv (now : string) (response : pyval) (ai : dict) :
  _parse_ai_response now response = Some ai ->
  exists content,
    response_content response = Some (PStr content) /\
    ai = [ ("timestamp", PStr now);
           ("raw_analysis", PStr content);
           ("sentiment", PStr (_extract_sentiment content));
           ("confidence_score", PNum (_extract_confidence content));
           ("key_levels", PList (map PNum (_extract_key_levels content)));
           ("recommendations",
             PList (map PStr (_extract_recommendations content))) ].
Proof.
  unfold _parse_ai_response.
  destruct (response_content response) as [[| | |content| |]|];
    try discriminate.
  intro H. injection H as <-. exists content. split; reflexivity.
Qed.

Lemma parsed_confidence (now : string) (response : pyval) (ai : dict) :
  _parse_ai_response now response = Some ai ->
  exists q,
    lookup ai "confidence_score" = Some (PNum (Fin q)) /\
    0.2 <= q /\ q <= 1.
Proof.
  intro H. destruct (parse_inv now response ai H) as [content [_ ->]].
  destruct (extract_confidence_range content) as [q [E B]].
  exists q. split; [|exact B]. cbn. rewrite E. reflexivity.
Qed.

(** X4.  Whatever the response, a verdict that [_parse_ai_response] returns
    has a sentiment among bullish, bearish and neutral, a confidence that
    is a number between 0.2 and 1, a list of numbers as key levels and a
    list of strings as recommendations. *)
Theorem X4_parsed_verdict_shape (now : string) (response : pyval)
    (ai : dict) :
  _parse_ai_response now response = Some ai ->
  (exists s, lookup ai "sentiment" = Some (PStr s) /\
             (s = "bullish" \/ s = "bearish" \/ s = "neutral")) /\
  (exists q, lookup ai "confidence_score" = Some (PNum (Fin q)) /\
             0.2 <= q /\ q <= 1) /\
  (exists levels, lookup ai "key_levels" = Some (PList (map PNum levels))) /\
  (exists recs,
      lookup ai "recommendations" = Some (PList (map PStr recs))) /\
  confidence_ok ai.
Proof.
  intro H. pose proof (parsed_confidence now response ai H) as C.
  destruct (parse_inv now response ai H) as [content [_ E]].
  split; [|split; [exact C|split; [|split]]].
  - subst ai. eexists. split; [reflexivity|].
    apply extract_sentiment_values.
  - subst ai. eexists. reflexivity.
  - subst ai. eexists. reflexivity.
  - destruct C as [q [L _]]. unfold confidence_ok. rewrite L.
    eexists. reflexivity.
Qed.

(** X4 on a well-formed response. *)
Lemma X4_parsed_verdict_shape_witness :
  exists q,
    lookup
      [ ("timestamp", PStr "2025-01-01T00:00:00");
        ("raw_analysis", PStr "Likely higher, support at $1.5");
        ("sentiment", PStr "bullish");
        ("confidence_score", PNum (Fin (3 # 5)));
        ("key_levels", PList [PNum (Fin (3 # 2))]);
        ("recommendations", PList []) ]
      "confidence_score" = Some (PNum (Fin q)) /\
    0.2 <= q /\ q <= 1.
Proof.
  exact (proj1 (proj2 (X4_parsed_verdict_shape "2025-01-01T00:00:00"
    (PDict [("choices",
              PList [PDict [("message",
                PDict [("content",
                         PStr "Likely higher, support at $1.5")])]])])
    _ eq_refl))).
Defined.

(** X5.  A response object with no [choices] key, such as an error
    message of the endpoint, is not a failure: the defaults of the three
    [get] calls lead to an empty text, which parses to a neutral verdict of
    confidence 0.5 with no level and no recommendation.  A response that is
    not an object, or whose [choices] is an empty list, gives [None]. *)
Theorem X5_response_without_choices (now : string) (d : dict) :
  lookup d "choices" = None ->
  _parse_ai_response now (PDict d)
  = Some [ ("timestamp", PStr now);
           ("raw_analysis", PStr "");
           ("sentiment", PStr "neutral");
           ("confidence_score", PNum (Fin 0.5));
           ("key_levels", PList []);
           ("recommendations", PList []) ]
  /\ _parse_ai_response now (PDict (("choices", PList []) :: d)) = None
  /\ (forall l, _parse_ai_response now (PList l) = None)
  /\ (forall s, _parse_ai_response now (PStr s) = None)
  /\ _parse_ai_response now PNone = None.
Proof.
  intro H. split; [|repeat split].
  unfold _parse_ai_response, response_content, py_get, get.
  rewrite H. reflexivity.
Qed.

(** X5 on an error message. *)
Lemma X5_response_without_choices_witness :
  _parse_ai_response "2025-01-01T00:00:00"
    (PDict [("error", PStr "rate limit exceeded")])
  = Some [ ("timestamp", PStr "2025-01-01T00:00:00");
           ("raw_analysis", PStr "");
           ("sentiment", PStr "neutral");
           ("confidence_score", PNum (Fin 0.5));
           ("key_levels", PList []);
           ("recommendations", PList []) ].
Proof.
  exact (proj1 (X5_response_without_choices "2025-01-01T00:00:00"
                  [("error", PStr "rate limit exceeded")] eq_refl)).
Defined.

End ParseFacts.

(** ** More on the fuser *)

Section FuserFacts.

Import SignalGenerator.

Lemma technical_scores_bounds (tech : dict) :
  exists b r,
    technical_scores tech = (Fin b, Fin r) /\
    0 <= b /\ b <= 0.5 /\ 0 <= r /\ r <= 0.5.
Proof.
  destruct (technical_scores_value tech) as [b [r [E [Hb Hr]]]].
  exists b, r. split; [exact E|]. rewrite Hb, Hr. unfold contribution.
  destruct (flag tech "uptrend"), (flag tech "golden_cross"),
    (flag tech "rsi_oversold"), (flag tech "downtrend"),
    (flag tech "death_cross"), (flag tech "rsi_overbought");
    repeat split; lra.
Qed.

(** The sentiment adds to one side at most: the other side keeps its
    technical score. *)
Lemma final_scores_sides (tech ai : dict) (bull bear : num) :
  final_scores tech ai = Ok (bull, bear) ->
  exists b r,
    technical_scores tech = (Fin b, Fin r) /\
    0 <= b /\ b <= 0.5 /\ 0 <= r /\ r <= 0.5 /\
    (is_bullish ai = false -> bull = Fin b) /\
    (is_bearish ai = false -> bear = Fin r).
Proof.
  destruct (technical_scores_bounds tech) as [b [r [E B]]].
  unfold final_scores, ai_scores. rewrite E.
  fold (is_bullish ai). fold (is_bearish ai). intro H.
  exists b, r. split; [reflexivity|].
  destruct B as [B1 [B2 [B3 B4]]]. repeat (split; [assumption|]).
  destruct (is_bullish ai) eqn:Bu.
  - rewrite (bullish_not_bearish ai Bu).
    destruct (as_num _) as [c|e]; cbn [bind] in H; [|discriminate H].
    injection H as _ <-. split; [discriminate | reflexivity].
  - destruct (is_bearish ai) eqn:Be.
    + destruct (as_num _) as [c|e]; cbn [bind] in H; [|discriminate H].
      injection H as <- _. split; [reflexivity | discriminate].
    + injection H as <- <-. split; reflexivity.
Qed.

(** X6.  With a confidence between 0 and 1 the two scores lie between 0 and
    1, and one of them is at most 0.5. *)
Theorem X6_scores_bounded (tech ai : dict) (c : Q) :
  scoring_confidence ai = Ok (Fin c) -> 0 <= c -> c <= 1 ->
  exists bull bear,
    final_scores tech ai = Ok (Fin bull, Fin bear) /\
    0 <= bull /\ bull <= 1 /\ 0 <= bear /\ bear <= 1 /\
    (bull <= 0.5 \/ bear <= 0.5).
Proof.
  intros Hc L U.
  destruct (technical_scores_bounds tech) as [b [r [E [B1 [B2 [B3 B4]]]]]].
  unfold final_scores, ai_scores. rewrite E.
  unfold scoring_confidence in Hc. rewrite Hc.
  destruct (eq_str _ "bullish"); [|destruct (eq_str _ "bearish")];
    cbn [bind Num.add Num.mul];
    do 2 eexists; (split; [reflexivity|]);
    rewrite ?Qred_correct; repeat split; try lra; auto.
Qed.

(** X6 on the scenario of the specification. *)
Lemma X6_scores_bounded_witness :
  exists bull bear,
    final_scores scenario_technical scenario_sentiment
    = Ok (Fin bull, Fin bear) /\
    0 <= bull /\ bull <= 1 /\ 0 <= bear /\ bear <= 1 /\
    (bull <= 0.5 \/ bear <= 0.5).
Proof.
  apply (X6_scores_bounded scenario_technical scenario_sentiment 0.9);
    [reflexivity | discriminate | discriminate].
Defined.

(** Under the threshold of [__init__], a verdict that is neither bullish
    nor bearish leaves the record neutral. *)
Lemma undecided_sentiment_neutral (tf now : string) (cp : num)
    (tech ai : dict) (ta : TA.t) (d : dict) :
  _generate_final_signal (init tf) now cp tech ai ta = Ok d ->
  is_bullish ai = false -> is_bearish ai = false ->
  lookup d "signal" = Some (PStr "neutral").
Proof.
  intros H Nb Nr.
  destruct (final_signal_inv (init tf) now cp tech ai ta d H)
    as [bull [bear [Hs F]]].
  destruct (final_scores_sides tech ai bull bear Hs)
    as [b [r [_ [_ [Ub [_ [Ur [Sb Sr]]]]]]]].
  rewrite (Sb Nb), (Sr Nr) in F.
  assert (E : signal_type (init tf) (Fin b) (Fin r) = None).
  { unfold signal_type. cbn [min_confidence_threshold init Num.ltb].
    assert (X : Qltb 0.7 b = false) by (apply Qltb_ge; lra).
    assert (Y : Qltb 0.7 r = false) by (apply Qltb_ge; lra).
    rewrite X, Y, !andb_false_r. reflexivity. }
  rewrite E in F. apply F.
Qed.

(** X7.  Under the threshold 0.7 of [__init__] the technical conditions
    alone never decide: a buy record needs a bullish verdict, a sell record
    a bearish one, and any other sentiment gives a neutral record. *)
Theorem X7_direction_needs_sentiment (tf now : string) (cp : num)
    (tech ai : dict) (ta : TA.t) (d : dict) :
  _generate_final_signal (init tf) now cp tech ai ta = Ok d ->
  (lookup d "signal" = Some (PStr "buy") -> is_bullish ai = true) /\
  (lookup d "signal" = Some (PStr "sell") -> is_bearish ai = true) /\
  (is_bullish ai = false -> is_bearish ai = false ->
   lookup d "signal" = Some (PStr "neutral")).
Proof.
  intro H.
  destruct (final_signal_inv (init tf) now cp tech ai ta d H)
    as [bull [bear [Hs F]]].
  destruct (final_scores_sides tech ai bull bear Hs)
    as [b [r [_ [_ [Ub [_ [Ur [Sb Sr]]]]]]]].
  assert (Nb : is_bullish ai = false ->
               (min_confidence_threshold (init tf) <? bull)%num = false).
  { intro X. rewrite (Sb X). cbn. apply Qltb_ge. lra. }
  assert (Nr : is_bearish ai = false ->
               (min_confidence_threshold (init tf) <? bear)%num = false).
  { intro X. rewrite (Sr X). cbn. apply Qltb_ge. lra. }
  destruct (signal_type_cases (init tf) bull bear)
    as [[E [_ T]] | [[E [_ [T _]]] | [E _]]]; rewrite E in F.
  - destruct F as [tg [_ [S _]]]. rewrite S.
    repeat split; try discriminate.
    + intros _. destruct (is_bullish ai); [reflexivity|].
      rewrite (Nb eq_refl) in T. discriminate T.
    + intros X _. rewrite (Nb X) in T. discriminate T.
  - destruct F as [tg [_ [S _]]]. rewrite S.
    repeat split; try discriminate.
    + intros _. destruct (is_bearish ai); [reflexivity|].
      rewrite (Nr eq_refl) in T. discriminate T.
    + intros _ X. rewrite (Nr X) in T. discriminate T.
  - destruct F as [S _]. rewrite S. repeat split; try discriminate.
Qed.

(** X7 on every flag of the bull side with a neutral verdict: neutral. *)
Lemma X7_direction_needs_sentiment_witness :
  exists d,
    _generate_final_signal (init "1h") "2025-01-01T00:00:00" (Fin 100)
      [("uptrend", PBool true); ("golden_cross", PBool true);
       ("rsi_oversold", PBool true)]
      [("sentiment", PStr "neutral"); ("confidence_score", PNum (Fin 1))]
      frame_regular = Ok d /\
    lookup d "signal" = Some (PStr "neutral").
Proof.
  eexists. split; [reflexivity|].
  apply (X7_direction_needs_sentiment "1h" "2025-01-01T00:00:00" (Fin 100)
           [("uptrend", PBool true); ("golden_cross", PBool true);
            ("rsi_oversold", PBool true)]
           [("sentiment", PStr "neutral");
            ("confidence_score", PNum (Fin 1))]
           frame_regular _ eq_refl); reflexivity.
Defined.

(** X8.  The frame is read for a directional decision only: over an empty
    frame the fuser still returns the neutral record when neither side
    wins, and raises [IndexError] when one does. *)
Theorem X8_empty_frame (self : t) (now : string) (cp : num)
    (tech ai : dict) (ta : TA.t) :
  confidence_ok ai -> TA.df ta = [] ->
  exists bull bear,
    final_scores tech ai = Ok (bull, bear) /\
    match signal_type self bull bear with
    | None =>
        _generate_final_signal self now cp tech ai ta
        = Ok [ ("timestamp", PStr now);
               ("signal", PStr "neutral");
               ("message", PStr "No clear trading opportunity");
               ("confidence", PNum (Num.max bull bear)) ]
    | Some _ =>
        _generate_final_signal self now cp tech ai ta = Raise IndexError
    end.
Proof.
  intros Hc E. destruct (final_scores_total tech ai Hc) as [bull [bear Hs]].
  exists bull, bear. split; [exact Hs|].
  unfold _generate_final_signal. rewrite Hs. cbn [bind].
  destruct (signal_type self bull bear) as [s|]; [|reflexivity].
  rewrite (calculate_trade_targets_empty ta cp _ _ E). reflexivity.
Qed.

(** X8 on the scenario (a buy) and on no flag at all (neutral). *)
Lemma X8_empty_frame_witness :
  _generate_final_signal (init "1h") "2025-01-01T00:00:00" (Fin 100)
    scenario_technical scenario_sentiment {| TA.df := [] |}
  = Raise IndexError
  /\
  _generate_final_signal (init "1h") "2025-01-01T00:00:00" (Fin 100)
    [] scenario_sentiment {| TA.df := [] |}
  = Ok [ ("timestamp", PStr "2025-01-01T00:00:00");
         ("signal", PStr "neutral");
         ("message", PStr "No clear trading opportunity");
         ("confidence", PNum (Fin (9 # 20))) ].
Proof.
  split.
  - destruct (X8_empty_frame (init "1h") "2025-01-01T00:00:00" (Fin 100)
                scenario_technical scenario_sentiment {| TA.df := [] |})
      as [bull [bear [Hs F]]].
    + simpl. exists (Fin 0.9). reflexivity.
    + reflexivity.
    + vm_compute in Hs. injection Hs as <- <-. exact F.
  - destruct (X8_empty_frame (init "1h") "2025-01-01T00:00:00" (Fin 100)
                [] scenario_sentiment {| TA.df := [] |})
      as [bull [bear [Hs F]]].
    + simpl. exists (Fin 0.9). reflexivity.
    + reflexivity.
    + vm_compute in Hs. injection Hs as <- <-. exact F.
Defined.

(** X9.  In every record, directional or not, the confidence is the greater
    of the two scores. *)
Theorem X9_confidence_is_max (self : t) (now : string) (cp : num)
    (tech ai : dict) (ta : TA.t) (d : dict) :
  _generate_final_signal self now cp tech ai ta = Ok d ->
  exists bull bear,
    final_scores tech ai = Ok (bull, bear) /\
    lookup d "confidence" = Some (PNum (Num.max bull bear)).
Proof.
  unfold _generate_final_signal.
  destruct (final_scores tech ai) as [[bull bear]|e]; cbn [bind];
    [|discriminate].
  intro H. exists bull, bear. split; [reflexivity|].
  destruct (signal_type_cases self bull bear)
    as [[E [A _]] | [[E [A _]] | [E _]]]; rewrite E in H.
  - destruct (TA.calculate_trade_targets ta cp _ _) as [tg|e];
      cbn [bind] in H; [|discriminate].
    destruct (_get_entry_timing tech ai) as [tm|e]; cbn [bind] in H;
      [|discriminate].
    injection H as <-. unfold Num.max. rewrite (ltb_asym _ _ A).
    reflexivity.
  - destruct (TA.calculate_trade_targets ta cp _ _) as [tg|e];
      cbn [bind] in H; [|discriminate].
    destruct (_get_entry_timing tech ai) as [tm|e]; cbn [bind] in H;
      [|discriminate].
    injection H as <-. unfold Num.max. rewrite A. reflexivity.
  - injection H as <-. reflexivity.
Qed.

(** X9 on the scenario: 0.85 against 0. *)
Lemma X9_confidence_is_max_witness :
  exists d,
    _generate_final_signal (init "1h") "2025-01-01T00:00:00" (Fin 100)
      scenario_technical scenario_sentiment frame_regular = Ok d /\
    lookup d "confidence" = Some (PNum (Num.max (Fin (17 # 20)) (Fin 0))).
Proof.
  eexists. split; [reflexivity|].
  destruct (X9_confidence_is_max (init "1h") "2025-01-01T00:00:00" (Fin 100)
              scenario_technical scenario_sentiment frame_regular _ eq_refl)
    as [bull [bear [Hs Hc]]].
  vm_compute in Hs. injection Hs as <- <-. exact Hc.
Defined.

End FuserFacts.

(** ** The flags of [generate_signals] *)

Section SignalFrameFacts.

Import SignalGenerator SignalFrame.

Lemma rsi_zones_exclusive (x : num) :
  (x <? Fin 30)%num = true -> (Fin 70 <? x)%num = false.
Proof.
  destruct x as [q| | |]; cbn; try reflexivity; try discriminate.
  intro H. apply Qltb_lt in H. apply Qltb_ge. lra.
Qed.

(** The six flags that the fuser scores, read in a row of signals. *)
Lemma signal_row_flags (prev : option Row) (r : Row) :
  let d := signal_row prev r in
  flag d "rsi_oversold" = (rsi r <? Fin 30)%num /\
  flag d "rsi_overbought" = (Fin 70 <? rsi r)%num /\
  flag d "golden_cross"
    = ((ema_50 r <? ema_20 r)%num
       && leb (shifted ema_20 prev) (shifted ema_50 prev)) /\
  flag d "death_cross"
    = ((ema_20 r <? ema_50 r)%num
       && leb (shifted ema_50 prev) (shifted ema_20 prev)) /\
  flag d "uptrend"
    = ((ema_50 r <? ema_20 r)%num && (ema_200 r <? ema_50 r)%num
       && (ema_20 r <? TA.close (bar r))%num) /\
  flag d "downtrend"
    = ((ema_20 r <? ema_50 r)%num && (ema_50 r <? ema_200 r)%num
       && (TA.close (bar r) <? ema_20 r)%num).
Proof. repeat split; reflexivity. Qed.

(** Flags of opposite sides that cannot hold in the same row. *)
Lemma signal_row_exclusive (prev : option Row) (r : Row) :
  let d := signal_row prev r in
  flag d "uptrend" && flag d "downtrend" = false /\
  flag d "golden_cross" && flag d "death_cross" = false /\
  flag d "rsi_oversold" && flag d "rsi_overbought" = false /\
  flag d "uptrend" && flag d "death_cross" = false /\
  flag d "downtrend" && flag d "golden_cross" = false.
Proof.
  intro d.
  destruct (signal_row_flags prev r) as [E1 [E2 [E3 [E4 [E5 E6]]]]].
  fold d in E1, E2, E3, E4, E5, E6. rewrite E1, E2, E3, E4, E5, E6.
  pose proof (ltb_asym (ema_50 r) (ema_20 r)) as A.
  pose proof (rsi_zones_exclusive (rsi r)) as Z.
  destruct (ema_50 r <? ema_20 r)%num;
    [rewrite (A eq_refl)|]; cbn [andb];
    destruct (rsi r <? Fin 30)%num; [rewrite (Z eq_refl)| |rewrite (Z eq_refl)|];
    repeat split; cbn [andb]; rewrite ?andb_false_r; reflexivity.
Qed.

(** X10.  In every row of [generate_signals] the flags of opposite sides
    exclude each other: uptrend and downtrend, golden cross and death
    cross, oversold and overbought, MACD crossover and crossunder; an
    uptrend excludes a death cross and a downtrend a golden cross. *)
Theorem X10_opposite_flags_exclusive (prev : option Row) (r : Row) :
  let d := signal_row prev r in
  flag d "uptrend" && flag d "downtrend" = false /\
  flag d "golden_cross" && flag d "death_cross" = false /\
  flag d "rsi_oversold" && flag d "rsi_overbought" = false /\
  flag d "uptrend" && flag d "death_cross" = false /\
  flag d "downtrend" && flag d "golden_cross" = false /\
  flag d "macd_crossover" && flag d "macd_crossunder" = false.
Proof.
  intro d.
  destruct (signal_row_exclusive prev r) as [E1 [E2 [E3 [E4 E5]]]].
  fold d in E1, E2, E3, E4, E5. repeat (split; [assumption|]).
  change (flag d "macd_crossover")
    with ((Fin 0 <? macd_hist r)%num
          && (shifted macd_hist prev <? Fin 0)%num).
  change (flag d "macd_crossunder")
    with ((macd_hist r <? Fin 0)%num
          && (Fin 0 <? shifted macd_hist prev)%num).
  pose proof (ltb_asym (Fin 0) (macd_hist r)) as A.
  destruct (Fin 0 <? macd_hist r)%num; [rewrite (A eq_refl)|];
    cbn [andb]; rewrite ?andb_false_r; reflexivity.
Qed.

Lemma signals_from_length (prev : option Row) (rows : list Row) :
  List.length (signals_from prev rows) = List.length rows.
Proof.
  revert prev. induction rows as [|r rows IH]; intro prev; cbn;
    [reflexivity | now rewrite IH].
Qed.

Lemma latest_ok (signals : list dict) :
  signals <> [] ->
  exists d rest, signals = (rest ++ [d])%list /\ latest signals = Ok d.
Proof.
  intro N. destruct (exists_last N) as [rest [d E]].
  exists d, rest. split; [exact E|]. rewrite E. clear.
  induction rest as [|x rest IH]; [reflexivity|].
  cbn. destruct (rest ++ [d])%list eqn:E; [destruct rest; discriminate|].
  exact IH.
Qed.

(** The last row of signals is the row of the last row of the frame. *)
Lemma latest_generate (rows : list Row) :
  rows <> [] ->
  exists prev r,
    In r rows /\ latest (generate_signals rows) = Ok (signal_row prev r).
Proof.
  unfold generate_signals. generalize (@None Row).
  induction rows as [|r rows IH]; intros prev N; [contradiction|].
  destruct rows as [|r' rows].
  - exists prev, r. split; [left; reflexivity | reflexivity].
  - destruct (IH (Some r)) as [p [x [I E]]]; [discriminate|].
    exists p, x. split; [right; exact I|].
    cbn [signals_from latest] in *. exact E.
Qed.

(** X11.  [generate_signals] gives one row of flags per row of the frame;
    its first row has no cross of any kind, since the shifted columns are
    NaN there, and a row whose [ema_50] is NaN has no trend and no cross of
    the moving averages.  Reading the last row fails with [IndexError] on
    the empty frame only. *)
Theorem X11_rows_and_warm_up (r : Row) (rest : list Row) :
  List.length (generate_signals (r :: rest)) = S (List.length rest) /\
  (exists d ds,
      generate_signals (r :: rest) = d :: ds /\
      flag d "golden_cross" = false /\ flag d "death_cross" = false /\
      flag d "macd_crossover" = false /\ flag d "macd_crossunder" = false) /\
  (forall prev x,
      ema_50 x = NaN ->
      flag (signal_row prev x) "uptrend" = false /\
      flag (signal_row prev x) "downtrend" = false /\
      flag (signal_row prev x) "golden_cross" = false /\
      flag (signal_row prev x) "death_cross" = false) /\
  (exists d, latest (generate_signals (r :: rest)) = Ok d) /\
  latest (generate_signals []) = Raise IndexError.
Proof.
  split; [|split; [|split; [|split]]].
  - unfold generate_signals. now rewrite signals_from_length.
  - do 2 eexists. split; [reflexivity|].
    destruct (signal_row_flags None r) as [_ [_ [E3 [E4 _]]]].
    rewrite E3, E4. cbn [shifted leb].
    rewrite !andb_false_r. repeat split.
    + change (flag (signal_row None r) "macd_crossover")
        with ((Fin 0 <? macd_hist r)%num && (NaN <? Fin 0)%num).
      cbn [Num.ltb]. apply andb_false_r.
    + change (flag (signal_row None r) "macd_crossunder")
        with ((macd_hist r <? Fin 0)%num && (Fin 0 <? NaN)%num).
      cbn [Num.ltb]. apply andb_false_r.
  - intros prev x E.
    destruct (signal_row_flags prev x) as [_ [_ [E3 [E4 [E5 E6]]]]].
    rewrite E3, E4, E5, E6, E.
    assert (L : forall y, (NaN <? y)%num = false) by reflexivity.
    assert (R : forall y, (y <? NaN)%num = false) by (now destruct y).
    rewrite !L, !R. cbn [andb]. repeat split.
  - destruct (latest_generate (r :: rest)) as [p [x [_ E]]];
      [discriminate|]. eexists. exact E.
  - reflexivity.
Qed.

(** X12.  Scored by the fuser, a row of [generate_signals] never has both
    technical scores above the weight of the RSI zone, and the two scores
    add up to 0.5 at most. *)
Theorem X12_generated_scores_one_sided (prev : option Row) (r : Row) :
  exists b s,
    technical_scores (signal_row prev r) = (Fin b, Fin s) /\
    b + s <= 0.5 /\ (b <= 0.1 \/ s <= 0.1).
Proof.
  destruct (technical_scores_value (signal_row prev r))
    as [b [s [E [Hb Hs]]]].
  exists b, s. split; [exact E|]. rewrite Hb, Hs.
  destruct (signal_row_exclusive prev r) as [E1 [E2 [E3 [E4 E5]]]].
  unfold contribution.
  destruct (flag (signal_row prev r) "uptrend"),
    (flag (signal_row prev r) "golden_cross"),
    (flag (signal_row prev r) "rsi_oversold"),
    (flag (signal_row prev r) "downtrend"),
    (flag (signal_row prev r) "death_cross"),
    (flag (signal_row prev r) "rsi_overbought");
    try discriminate E1; try discriminate E2; try discriminate E3;
    try discriminate E4; try discriminate E5;
    (split; [lra | first [left; lra | right; lra]]).
Qed.

End SignalFrameFacts.

(** ** A whole cycle *)

Section CycleFacts.

Import SignalGenerator SignalFrame DeepSeekResponse Cycle.

Lemma analysis_nonempty (rows : list Row) :
  rows <> [] -> TA.df (analysis rows) <> [].
Proof. destruct rows; [contradiction | discriminate]. Qed.

Lemma final_signal_values (self : t) (now : string) (cp : num)
    (tech ai : dict) (ta : TA.t) (d : dict) :
  _generate_final_signal self now cp tech ai ta = Ok d ->
  lookup d "signal" = Some (PStr "buy") \/
  lookup d "signal" = Some (PStr "sell") \/
  lookup d "signal" = Some (PStr "neutral").
Proof.
  intro H.
  destruct (final_signal_inv self now cp tech ai ta d H)
    as [bull [bear [_ F]]].
  destruct (signal_type_cases self bull bear)
    as [[E _] | [[E _] | [E _]]]; rewrite E in F.
  - destruct F as [tg [_ [S _]]]. auto.
  - destruct F as [tg [_ [S _]]]. auto.
  - destruct F as [S _]. auto.
Qed.

Lemma final_signal_timestamp (self : t) (now : string) (cp : num)
    (tech ai : dict) (ta : TA.t) (d : dict) :
  _generate_final_signal self now cp tech ai ta = Ok d ->
  lookup d "timestamp" = Some (PStr now).
Proof.
  unfold _generate_final_signal.
  destruct (final_scores _ _) as [[bull bear]|e]; cbn [bind];
    [|discriminate].
  destruct (signal_type self bull bear).
  - destruct (TA.calculate_trade_targets _ _ _ _); cbn [bind];
      [|discriminate].
    destruct (_get_entry_timing _ _); cbn [bind]; [|discriminate].
    intro H. injection H as <-. reflexivity.
  - intro H. injection H as <-. reflexivity.
Qed.

(** X13.  The cycle depends on the indicator library.  When
    [add_all_indicators] raises, the cycle returns [None], whatever the
    exchange and the model answer.  When it succeeds and leaves a
    non-empty frame, the cycle gives a record, and not [None], as soon as
    the exchange answers with a frame, a price and statistics that hold
    the change and the volume, and the model answers with anything in
    which a text can be read: nothing in the scoring, the targets or the
    timing can fail on what the parsing and [generate_signals] produce. *)
Theorem X13_cycle_returns_a_record (self : t) (now_ai now : string)
    (df : list TA.Bar) (indicators : list TA.Bar -> option (list Row))
    (cp : num) (stats : dict) (response : pyval) :
  (indicators df = None ->
   forall cp' stats' query,
     generate_trading_signal self now_ai now (Some df) indicators cp'
       stats' query = None) /\
  (forall (rows : list Row) (content : string) (change volume : pyval),
     indicators df = Some rows ->
     rows <> [] ->
     lookup stats "price_change_percent" = Some change ->
     lookup stats "volume" = Some volume ->
     response_content response = Some (PStr content) ->
     exists d,
       generate_trading_signal self now_ai now (Some df) indicators
         (Some cp) (Some stats) (Some response) = Some d /\
       lookup d "timestamp" = Some (PStr now) /\
       (lookup d "signal" = Some (PStr "buy") \/
        lookup d "signal" = Some (PStr "sell") \/
        lookup d "signal" = Some (PStr "neutral"))).
Proof.
  split.
  - intros E cp' stats' query. unfold generate_trading_signal.
    destruct cp' as [c|]; [|reflexivity].
    destruct stats' as [m|]; [|reflexivity].
    now rewrite E.
  - intros rows content change volume E N Hc Hv Hr.
    destruct (latest_generate rows N) as [prev [r [_ L]]].
    unfold generate_trading_signal. rewrite E, L, Hc, Hv.
    unfold analyze_market_sentiment, _parse_ai_response. rewrite Hr.
    set (ai := [ ("timestamp", PStr now_ai); _; _; _; _; _ ]).
    assert (P : _parse_ai_response now_ai response = Some ai).
    { unfold _parse_ai_response. rewrite Hr. reflexivity. }
    assert (C : confidence_ok ai).
    { destruct (parsed_confidence now_ai response ai P) as [q [Lq _]].
      unfold confidence_ok. rewrite Lq. eexists. reflexivity. }
    destruct (final_signal_total self now cp (signal_row prev r) ai
                (analysis rows) C (analysis_nonempty rows N)) as [d Hd].
    rewrite Hd. exists d. split; [reflexivity|]. split.
    + exact (final_signal_timestamp _ _ _ _ _ _ _ Hd).
    + exact (final_signal_values _ _ _ _ _ _ _ Hd).
Qed.

(** X13 on a frame of fourteen rows in an uptrend and a bullish answer. *)
Lemma X13_cycle_returns_a_record_witness :
  exists d,
    generate_trading_signal (init "1h") "2025-01-01T00:00:00"
      "2025-01-01T00:00:01" (Some (map bar rows_uptrend))
      (fun _ => Some rows_uptrend) (Some (Fin 11))
      (Some stats_example) (Some response_bullish) = Some d /\
    lookup d "timestamp" = Some (PStr "2025-01-01T00:00:01") /\
    (lookup d "signal" = Some (PStr "buy") \/
     lookup d "signal" = Some (PStr "sell") \/
     lookup d "signal" = Some (PStr "neutral")).
Proof.
  apply (proj2 (X13_cycle_returns_a_record (init "1h")
                  "2025-01-01T00:00:00" "2025-01-01T00:00:01"
                  (map bar rows_uptrend) (fun _ => Some rows_uptrend)
                  (Fin 11) stats_example response_bullish)
           rows_uptrend
           "Strong bullish growth, a clear upward move to $12.5; buy"
           (PNum (Fin 1)) (PNum (Fin 5)));
    [reflexivity | discriminate | reflexivity | reflexivity | reflexivity].
Defined.

(** X14.  When [add_all_indicators] succeeds with a non-empty frame and
    the endpoint answers with an object that has no [choices], the cycle
    is not skipped: the verdict is the neutral one, and under the
    threshold of [__init__] the cycle returns a neutral record. *)
Theorem X14_cycle_on_error_payload (tf now_ai now : string)
    (df : list TA.Bar) (indicators : list TA.Bar -> option (list Row))
    (rows : list Row) (cp : num) (stats payload : dict)
    (change volume : pyval) :
  indicators df = Some rows ->
  rows <> [] ->
  lookup stats "price_change_percent" = Some change ->
  lookup stats "volume" = Some volume ->
  lookup payload "choices" = None ->
  exists d,
    generate_trading_signal (init tf) now_ai now (Some df) indicators
      (Some cp) (Some stats) (Some (PDict payload)) = Some d /\
    lookup d "signal" = Some (PStr "neutral").
Proof.
  intros E N Hc Hv Hp.
  destruct (latest_generate rows N) as [prev [r [_ L]]].
  unfold generate_trading_signal. rewrite E, L, Hc, Hv.
  unfold analyze_market_sentiment, _parse_ai_response, response_content,
    py_get, get. rewrite Hp. cbn [py_first].
  change (lookup [] "message") with (@None pyval). cbv iota.
  change (lookup [] "content") with (@None pyval). cbv iota.
  set (ai := [ ("timestamp", PStr now_ai); _; _; _; _; _ ]).
  assert (C : confidence_ok ai).
  { unfold confidence_ok. cbn. eexists. reflexivity. }
  destruct (final_signal_total (init tf) now cp (signal_row prev r) ai
              (analysis rows) C (analysis_nonempty rows N)) as [d Hd].
  rewrite Hd. exists d. split; [reflexivity|].
  apply (undecided_sentiment_neutral tf now cp (signal_row prev r) ai
           (analysis rows) d Hd); reflexivity.
Qed.

(** X14 on a rate-limit message, with a library that gives the rows in
    an uptrend. *)
Lemma X14_cycle_on_error_payload_witness :
  exists d,
    generate_trading_signal (init "1h") "2025-01-01T00:00:00"
      "2025-01-01T00:00:01" (Some (map bar rows_uptrend))
      (fun _ => Some rows_uptrend) (Some (Fin 11))
      (Some stats_example)
      (Some (PDict [("error", PStr "rate limit exceeded")])) = Some d /\
    lookup d "signal" = Some (PStr "neutral").
Proof.
  apply (X14_cycle_on_error_payload "1h" "2025-01-01T00:00:00"
           "2025-01-01T00:00:01" (map bar rows_uptrend)
           (fun _ => Some rows_uptrend) rows_uptrend (Fin 11)
           stats_example [("error", PStr "rate limit exceeded")]
           (PNum (Fin 1)) (PNum (Fin 5)));
    [reflexivity | discriminate | reflexivity | reflexivity | reflexivity].
Defined.

End CycleFacts.

(** ** The configuration and the loop of the bot *)

Section BotFacts.

Import SignalGenerator DeepSeekResponse TradingBot.

Lemma dict_set_same (d : dict) (k : string) (v : pyval) :
  lookup (dict_set d k v) k = Some v.
Proof.
  induction d as [|[k' v'] d IH]; cbn [dict_set lookup].
  - now rewrite String.eqb_refl.
  - destruct (String.eqb k' k) eqn:E; cbn [lookup].
    + now rewrite String.eqb_refl.
    + rewrite E. exact IH.
Qed.

Lemma dict_set_other (d : dict) (k k' : string) (v : pyval) :
  String.eqb k k' = false -> lookup (dict_set d k v) k' = lookup d k'.
Proof.
  intro N. induction d as [|[k0 v0] d IH]; cbn [dict_set lookup].
  - now rewrite N.
  - destruct (String.eqb k0 k) eqn:E; cbn [lookup].
    + apply String.eqb_eq in E. subst k0. now rewrite N.
    + destruct (String.eqb k0 k'); [reflexivity | exact IH].
Qed.

Lemma dict_set_keys (d : dict) (k : string) (v : pyval) :
  exists extra, map fst (dict_set d k v) = (map fst d ++ extra)%list.
Proof.
  induction d as [|[k' v'] d [extra IH]]; cbn [dict_set].
  - exists [k]. reflexivity.
  - destruct (String.eqb k' k) eqn:E.
    + apply String.eqb_eq in E. subst k'. exists []. cbn.
      now rewrite app_nil_r.
    + exists extra. cbn. now rewrite IH.
Qed.

Lemma lookup_not_in (d : dict) (k : string) :
  ~ In k (map fst d) -> lookup d k = None.
Proof.
  induction d as [|[k' v'] d IH]; intro N; [reflexivity|].
  cbn [lookup]. destruct (String.eqb k' k) eqn:E.
  - apply String.eqb_eq in E. subst k'. elim N. left. reflexivity.
  - apply IH. intro I. apply N. right. exact I.
Qed.

(** X15.  The display [{**a, **b}] of [_load_config], for a dict [b] (its
    keys are distinct): a key of [b] has the value of [b], any other key
    keeps the value of [a], and the keys of [a] stay first, in their
    order. *)
Theorem X15_merge_lookup (a b : dict) (k : string) :
  NoDup (map fst b) ->
  lookup (merge a b) k
  = match lookup b k with
    | Some v => Some v
    | None => lookup a k
    end
  /\ exists extra, map fst (merge a b) = (map fst a ++ extra)%list.
Proof.
  unfold merge. revert a. induction b as [|[k' v'] b IH]; intros a N.
  - split; [reflexivity|]. exists []. cbn. now rewrite app_nil_r.
  - inversion N as [|? ? Nk Nb]; subst.
    cbn [fold_left fst snd lookup].
    destruct (IH (dict_set a k' v') Nb) as [L [extra K]].
    split.
    + rewrite L. destruct (String.eqb k' k) eqn:E.
      * apply String.eqb_eq in E. subst k'.
        rewrite (lookup_not_in b k Nk). apply dict_set_same.
      * destruct (lookup b k); [reflexivity|].
        apply dict_set_other, E.
    + destruct (dict_set_keys a k' v') as [e1 K1].
      exists (e1 ++ extra)%list. rewrite K, K1. now rewrite app_assoc.
Qed.

(** X15 on a file that sets the interval and adds a key. *)
Lemma X15_merge_lookup_witness :
  lookup (merge default_config
            [("update_interval", PNum (Fin 60)); ("extra", PNone)])
    "update_interval" = Some (PNum (Fin 60)).
Proof.
  apply (X15_merge_lookup default_config
           [("update_interval", PNum (Fin 60)); ("extra", PNone)]
           "update_interval").
  repeat constructor; cbn; intuition discriminate.
Defined.

Lemma merge_keeps_keys (a b : dict) (k : string) (v : pyval) :
  lookup a k = Some v -> exists v', lookup (merge a b) k = Some v'.
Proof.
  unfold merge. revert a v. induction b as [|[k' v'] b IH]; intros a v H.
  - exists v. exact H.
  - cbn [fold_left fst snd]. destruct (String.eqb k' k) eqn:E.
    + apply String.eqb_eq in E. subst k'.
      apply (IH _ v'). apply dict_set_same.
    + apply (IH _ v). rewrite (dict_set_other a k' k v' E). exact H.
Qed.

(** X16.  Whatever is found at the path of the configuration, the result
    of [_load_config] has a value for each of the six keys of the defaults;
    it is the defaults themselves when there is no file, when the file
    cannot be read or decoded, when it holds something that is not an
    object, and when it holds the empty object. *)
Theorem X16_config_has_defaults (file : config_file) :
  (forall k, In k (map fst default_config) ->
             exists v, lookup (_load_config file) k = Some v) /\
  _load_config NoFile = default_config /\
  _load_config Unreadable = default_config /\
  _load_config (Loaded (PDict [])) = default_config /\
  (forall l, _load_config (Loaded (PList l)) = default_config) /\
  (forall s, _load_config (Loaded (PStr s)) = default_config) /\
  _load_config (Loaded PNone) = default_config.
Proof.
  split; [|repeat split].
  intros k I.
  assert (D : exists v, lookup default_config k = Some v).
  { cbn in I. decompose [or] I; subst; try contradiction;
      eexists; reflexivity. }
  destruct D as [v D].
  destruct file as [| |[| | | | |loaded]]; try (exists v; exact D).
  apply (merge_keeps_keys default_config loaded k v D).
Qed.

(** X17.  The bot builds its generator from the timeframe alone: whatever
    the configuration says of [signal_threshold] and [risk_reward_ratio],
    the generator decides with the threshold 0.7 and the ratio 2. *)
Theorem X17_configured_threshold_unused (file : config_file) (bot : TradingBot.t) :
  TradingBot.init file = Some bot ->
  config bot = _load_config file /\
  min_confidence_threshold (signal_generator bot) = Fin 0.7 /\
  risk_reward_ratio (signal_generator bot) = Fin 2.
Proof.
  unfold TradingBot.init.
  destruct (lookup (_load_config file) "timeframe") as [[| | |tf| |]|];
    try discriminate.
  intro H. injection H as <-. repeat split.
Qed.

(** X17 on a file that asks for a threshold of 0.5 and a ratio of 3. *)
Lemma X17_configured_threshold_unused_witness :
  exists bot,
    TradingBot.init
      (Loaded (PDict [("signal_threshold", PNum (Fin 0.5));
                      ("risk_reward_ratio", PNum (Fin 3))])) = Some bot /\
    lookup (config bot) "signal_threshold" = Some (PNum (Fin 0.5)) /\
    min_confidence_threshold (signal_generator bot) = Fin 0.7 /\
    risk_reward_ratio (signal_generator bot) = Fin 2.
Proof.
  eexists. split; [reflexivity|]. split; [reflexivity|].
  apply (X17_configured_threshold_unused
           (Loaded (PDict [("signal_threshold", PNum (Fin 0.5));
                           ("risk_reward_ratio", PNum (Fin 3))]))).
  reflexivity.
Defined.

End BotFacts.

(** ** Printing and saving a record *)

Section PrintFacts.

Import SignalGenerator DeepSeekResponse TradingBot.

(** The two shapes of the record of the fuser. *)
Lemma final_signal_form (self : SignalGenerator.t) (now : string) (cp : num)
    (tech ai : dict) (ta : TA.t) (d : dict) :
  _generate_final_signal self now cp tech ai ta = Ok d ->
  (lookup d "signal" = Some (PStr "neutral") /\
   exists c,
     d = [ ("timestamp", PStr now);
           ("signal", PStr "neutral");
           ("message", PStr "No clear trading opportunity");
           ("confidence", PNum c) ])
  \/
  ((lookup d "signal" = Some (PStr "buy") \/
    lookup d "signal" = Some (PStr "sell")) /\
   exists s c tg tm t1 t2 t3,
     d = [ ("timestamp", PStr now);
           ("signal", PStr s);
           ("current_price", PNum cp);
           ("confidence", PNum c);
           ("entry", PDict [ ("price", PNum cp);
                             ("type", PStr "market");
                             ("timing", PStr tm) ]);
           ("targets", PDict [ ("stop_loss", PNum (TA.stop_loss tg));
                               ("take_profit", PNum (TA.take_profit tg)) ]);
           ("risk_reward_ratio", PNum (risk_reward_ratio self));
           ("key_levels", get ai "key_levels" (PList []));
           ("technical_factors",
             PDict [ ("trend", PStr t1);
                     ("rsi_condition", PStr t2);
                     ("volume_condition", PStr t3) ]);
           ("ai_analysis",
             PDict [ ("sentiment", get_none ai "sentiment");
                     ("confidence", get_none ai "confidence_score");
                     ("recommendations",
                       get ai "recommendations" (PList [])) ]) ]).
Proof.
  unfold _generate_final_signal.
  destruct (final_scores tech ai) as [[bull bear]|e]; cbn [bind];
    [|discriminate].
  destruct (signal_type_cases self bull bear)
    as [[E _] | [[E _] | [E _]]]; rewrite E.
  - destruct (TA.calculate_trade_targets ta cp _ _) as [tg|e]; cbn [bind];
      [|discriminate].
    destruct (_get_entry_timing tech ai) as [tm|e]; cbn [bind];
      [|discriminate].
    intro H. injection H as <-. right. split; [left; reflexivity|].
    do 7 eexists. reflexivity.
  - destruct (TA.calculate_trade_targets ta cp _ _) as [tg|e]; cbn [bind];
      [|discriminate].
    destruct (_get_entry_timing tech ai) as [tm|e]; cbn [bind];
      [|discriminate].
    intro H. injection H as <-. right. split; [right; reflexivity|].
    do 7 eexists. reflexivity.
  - intro H. injection H as <-. left. split; [reflexivity|].
    eexists. reflexivity.
Qed.

(** Printing a directional record: everything before the confidence of the
    verdict goes through, and the rest depends on three of its values. *)
Lemma print_directional (now s tm t1 t2 t3 : string) (cp c sl tp rr : num)
    (levels sentiment confidence recommendations : pyval) :
  _print_signal
    (Some [ ("timestamp", PStr now);
            ("signal", PStr s);
            ("current_price", PNum cp);
            ("confidence", PNum c);
            ("entry", PDict [ ("price", PNum cp);
                              ("type", PStr "market");
                              ("timing", PStr tm) ]);
            ("targets", PDict [ ("stop_loss", PNum sl);
                                ("take_profit", PNum tp) ]);
            ("risk_reward_ratio", PNum rr);
            ("key_levels", levels);
            ("technical_factors",
              PDict [ ("trend", PStr t1);
                      ("rsi_condition", PStr t2);
                      ("volume_condition", PStr t3) ]);
            ("ai_analysis",
              PDict [ ("sentiment", sentiment);
                      ("confidence", confidence);
                      ("recommendations", recommendations) ]) ])
  = (_ <~ format_float confidence ;;
     _ <~ (if truthy recommendations
           then join_strings recommendations else Done tt) ;;
     if truthy levels then format_levels levels else Done tt).
Proof. reflexivity. Qed.

Lemma each_strings (l : list string) :
  each (fun x => match x with
                 | PStr _ => Done tt
                 | _ => Fails TypeErr
                 end) (map PStr l) = Done tt.
Proof. induction l as [|x l IH]; cbn; [reflexivity | exact IH]. Qed.

Lemma each_numbers (l : list num) :
  each format_float (map PNum l) = Done tt.
Proof. induction l as [|x l IH]; cbn; [reflexivity | exact IH]. Qed.

(** X18.  [_print_signal] cannot print a neutral record of the fuser: the
    record has no [entry], and the function raises [KeyError] on it after
    the confidence line.  In the loop of [run] this sends the turn to the
    handler: the record is not saved, and the loop sleeps 60 seconds
    whatever the configured interval. *)
Theorem X18_neutral_record_not_saved (self : SignalGenerator.t)
    (now : string) (cp : num) (tech ai : dict) (ta : TA.t) (d : dict)
    (bot : TradingBot.t) :
  _generate_final_signal self now cp tech ai ta = Ok d ->
  lookup d "signal" = Some (PStr "neutral") ->
  _print_signal (Some d) = Fails (KeyError "entry") /\
  run_cycle bot (Some d) = [Slept (Fin 60)].
Proof.
  intros H S.
  assert (P : _print_signal (Some d) = Fails (KeyError "entry")).
  { destruct (final_signal_form self now cp tech ai ta d H)
      as [[_ [c ->]] | [[X|X] _]].
    - reflexivity.
    - rewrite S in X. discriminate X.
    - rewrite S in X. discriminate X. }
  split; [exact P|]. unfold run_cycle. rewrite P.
  destruct (lookup (config bot) "lookback_days"); reflexivity.
Qed.

(** X18 on the record of a cycle with no flag and a neutral verdict, in a
    bot with the default configuration. *)
Lemma X18_neutral_record_not_saved_witness :
  exists d,
    _generate_final_signal (SignalGenerator.init "1h") "2025-01-01T00:00:00"
      (Fin 100) [] [("sentiment", PStr "neutral")] frame_regular = Ok d /\
    _print_signal (Some d) = Fails (KeyError "entry") /\
    run_cycle {| config := default_config;
                 signal_generator := SignalGenerator.init "1h" |} (Some d)
    = [Slept (Fin 60)].
Proof.
  eexists. split; [reflexivity|].
  apply (X18_neutral_record_not_saved (SignalGenerator.init "1h")
           "2025-01-01T00:00:00" (Fin 100) []
           [("sentiment", PStr "neutral")] frame_regular);
    reflexivity.
Defined.

(** X19.  A buy or sell record built on a parsed verdict is printed without
    an exception; the turn of the loop then saves it and sleeps the
    configured interval. *)
Theorem X19_directional_record_saved (self : SignalGenerator.t)
    (now_ai now : string) (cp : num) (tech ai : dict) (ta : TA.t)
    (d : dict) (response : pyval) (bot : TradingBot.t)
    (days interval : pyval) (seconds : num) :
  _parse_ai_response now_ai response = Some ai ->
  _generate_final_signal self now cp tech ai ta = Ok d ->
  lookup d "signal" = Some (PStr "buy") \/
  lookup d "signal" = Some (PStr "sell") ->
  lookup (config bot) "lookback_days" = Some days ->
  lookup (config bot) "update_interval" = Some interval ->
  sleep_seconds interval = Some seconds ->
  _print_signal (Some d) = Done tt /\
  run_cycle bot (Some d) = [SaveAttempted d; Slept seconds].
Proof.
  intros P H S Hd Hi Hs.
  assert (Pr : _print_signal (Some d) = Done tt).
  { destruct (parse_inv now_ai response ai P) as [content [_ E]].
    destruct (final_signal_form self now cp tech ai ta d H)
      as [[N _] | [_ [s [c [tg [tm [t1 [t2 [t3 F]]]]]]]]].
    - destruct S as [S|S]; rewrite N in S; discriminate S.
    - rewrite F, print_directional. subst ai.
      change (get_none _ "confidence_score")
        with (PNum (_extract_confidence content)).
      change (get _ "recommendations" (PList []))
        with (PList (map PStr (_extract_recommendations content))).
      change (get _ "key_levels" (PList []))
        with (PList (map PNum (_extract_key_levels content))).
      cbn [format_float and_then join_strings format_levels].
      rewrite each_strings, each_numbers.
      destruct (truthy _); destruct (truthy _); reflexivity. }
  split; [exact Pr|]. unfold run_cycle. rewrite Hd, Pr, Hi, Hs.
  destruct (final_signal_form self now cp tech ai ta d H)
    as [[_ [c ->]] | [_ [s [c [tg [tm [t1 [t2 [t3 ->]]]]]]]]]; reflexivity.
Qed.

(** X19 on the scenario flags and the verdict parsed from a bullish
    answer: printed, saved, and a sleep of 300 seconds. *)
Lemma X19_directional_record_saved_witness :
  exists ai d,
    _parse_ai_response "2025-01-01T00:00:00" response_bullish = Some ai /\
    _generate_final_signal (SignalGenerator.init "1h") "2025-01-01T00:00:01"
      (Fin 100) scenario_technical ai frame_regular = Ok d /\
    lookup d "signal" = Some (PStr "buy") /\
    _print_signal (Some d) = Done tt /\
    run_cycle bot_default (Some d) = [SaveAttempted d; Slept (Fin 300)].
Proof.
  do 2 eexists. split; [reflexivity|]. split; [reflexivity|].
  split; [reflexivity|].
  eapply (X19_directional_record_saved (SignalGenerator.init "1h")
            "2025-01-01T00:00:00" "2025-01-01T00:00:01" (Fin 100)
            scenario_technical _ frame_regular _ response_bullish
            bot_default (PNum (Fin 30)) (PNum (Fin 300)) (Fin 300));
    try reflexivity.
  left. reflexivity.
Defined.

(** X20.  A buy or sell record built on a verdict that has no
    [confidence_score] cannot be printed: its [ai_analysis] holds [None]
    as confidence, which refuses the percent format; the record is not
    saved. *)
Theorem X20_missing_confidence_not_printed (self : SignalGenerator.t)
    (now : string) (cp : num) (tech ai : dict) (ta : TA.t) (d : dict)
    (bot : TradingBot.t) :
  lookup ai "confidence_score" = None ->
  _generate_final_signal self now cp tech ai ta = Ok d ->
  lookup d "signal" = Some (PStr "buy") \/
  lookup d "signal" = Some (PStr "sell") ->
  _print_signal (Some d) = Fails TypeErr /\
  run_cycle bot (Some d) = [Slept (Fin 60)].
Proof.
  intros L H S.
  assert (P : _print_signal (Some d) = Fails TypeErr).
  { destruct (final_signal_form self now cp tech ai ta d H)
      as [[N _] | [_ [s [c [tg [tm [t1 [t2 [t3 F]]]]]]]]].
    - destruct S as [S|S]; rewrite N in S; discriminate S.
    - rewrite F, print_directional. unfold get_none, get. rewrite L.
      reflexivity. }
  split; [exact P|]. unfold run_cycle. rewrite P.
  destruct (lookup (config bot) "lookback_days"); reflexivity.
Qed.

(** X20 on every bull flag and a bullish verdict with no confidence: a buy
    of confidence 0.75 that the loop cannot print. *)
Lemma X20_missing_confidence_not_printed_witness :
  exists d,
    _generate_final_signal (SignalGenerator.init "1h") "2025-01-01T00:00:00"
      (Fin 100)
      [("uptrend", PBool true); ("golden_cross", PBool true);
       ("rsi_oversold", PBool true)]
      [("sentiment", PStr "bullish")] frame_regular = Ok d /\
    lookup d "signal" = Some (PStr "buy") /\
    _print_signal (Some d) = Fails TypeErr /\
    run_cycle bot_default (Some d) = [Slept (Fin 60)].
Proof.
  eexists. split; [reflexivity|]. split; [reflexivity|].
  apply (X20_missing_confidence_not_printed (SignalGenerator.init "1h")
           "2025-01-01T00:00:00" (Fin 100)
           [("uptrend", PBool true); ("golden_cross", PBool true);
            ("rsi_oversold", PBool true)]
           [("sentiment", PStr "bullish")] frame_regular);
    try reflexivity.
  left. reflexivity.
Defined.

End PrintFacts.

(** ** Letter case *)

Section CaseFacts.

Import DeepSeekClient DeepSeekResponse.

Lemma lower_ascii_idempotent (c : ascii) :
  lower_ascii (lower_ascii c) = lower_ascii c.
Proof. destruct c as [[] [] [] [] [] [] [] []]; reflexivity. Qed.

Lemma lower_idempotent (s : string) : lower (lower s) = lower s.
Proof.
  induction s as [|c s IH]; cbn [lower]; [reflexivity|].
  now rewrite lower_ascii_idempotent, IH.
Qed.

(** X21.  The sentiment, the confidence and the recommendations do not
    depend on the case of the letters of the text: they are those of the
    text in small letters. *)
Theorem X21_case_insensitive (content : string) :
  _extract_sentiment (lower content) = _extract_sentiment content /\
  _extract_confidence (lower content) = _extract_confidence content /\
  _extract_recommendations (lower content)
  = _extract_recommendations content.
Proof.
  unfold _extract_sentiment, _extract_confidence, _extract_recommendations.
  rewrite !lower_idempotent. repeat split.
Qed.

End CaseFacts.

(** ** The window of the targets *)

Section WindowFacts.

Import TechnicalAnalysis.

(** X22.  Only the last fourteen bars of the frame count for the targets:
    two frames of fourteen bars or more with the same last fourteen bars
    give the same outcome, for every price, direction and ratio. *)
Theorem X22_targets_read_last_fourteen (ta1 ta2 : TA.t) (cp : num)
    (trend : string) (rr : num) :
  (14 <= List.length (df ta1))%nat ->
  (14 <= List.length (df ta2))%nat ->
  last14 (df ta1) = last14 (df ta2) ->
  calculate_trade_targets ta1 cp trend rr
  = calculate_trade_targets ta2 cp trend rr.
Proof.
  intros H1 H2 E. unfold calculate_trade_targets.
  rewrite (current_atr_last14 ta1 H1), (current_atr_last14 ta2 H2), E.
  reflexivity.
Qed.

(** X22 on the regular frame and the same frame after twenty older bars of
    another range. *)
Lemma X22_targets_read_last_fourteen_witness :
  calculate_trade_targets frame_regular (Fin 100) "long" (Fin 2)
  = calculate_trade_targets
      {| df := (repeat (mk_bar 50 1 20) 20 ++ df frame_regular)%list |}
      (Fin 100) "long" (Fin 2).
Proof.
  apply X22_targets_read_last_fourteen;
    [cbn; lia | cbn; lia | reflexivity].
Defined.

End WindowFacts.
